(** * bpmn-assistant: the process validator, the edit-proposal validator and
    the two orchestrators (creation and iterative editing).

    Sources embedded here:
    - [bpmn_assistant/services/bpmn_modeling_service.py] (BpmnModelingService)
    - [bpmn_assistant/services/process_editing/bpmn_editor_service.py]
      (BpmnEditorService)

    The Python code works on the values that [json.loads] produces, and it
    relies on Python's dynamic operators ([in], subscripting, iteration,
    [len]) without checking types first.  The embedding therefore keeps a
    type of JSON values together with those operators, including the
    interpreter errors they raise on the wrong kind of value. *)

From Stdlib Require Import ZArith String List Lia.
From stdpp Require Import base list strings gmap.

Local Open Scope string_scope.

(** ** JSON values

    A Python [dict] keeps its keys in insertion order and the validator
    iterates over whatever it is given, so objects are association lists in
    insertion order.  A number is never inspected by the code, only its
    dynamic type matters; the payload stands for the literal. *)

#[local] Unset Elimination Schemes.
Inductive json : Type :=
  | JNull
  | JBool (b : bool)
  | JNum (n : Z)
  | JStr (s : string)
  | JList (items : list json)
  | JDict (fields : list (string * json)).
#[local] Set Elimination Schemes.

(** Nesting depth of a value; it bounds the recursion of the validator. *)
Fixpoint json_depth (j : json) : nat :=
  match j with
  | JList items => S (list_max (map json_depth items))
  | JDict fields => S (list_max (map (fun kv => json_depth (snd kv)) fields))
  | _ => 0
  end.

(** ** Exceptions

    Messages built with f-strings are kept as a template constructor applied
    to the interpolated values. *)

Inductive msg : Type :=
  | Text (s : string)
  | MissingId (element : json)
  | MissingType (element : json)
  | UnsupportedType (ty : json) (supported : list string)
  | TaskMissingLabel (element : json)
  | ExclusiveMissingLabel (element : json)
  | ExclusiveInvalidBranches (element : json)
  | ExclusiveInvalidBranch (branch : json)
  | ParallelInvalidBranches (element : json)
  | FunctionNotFound (function_to_call : json).

Inductive exn : Type :=
  | Exception (m : msg)
  | ValueError (m : msg)
  | ProcessException (m : msg)
  | KeyError (key : json)
  | TypeError
  | AttributeError
  | UnboundLocalError
  | RecursionError
  | OtherException (class_name : string).

Inductive result (A : Type) : Type :=
  | Ok (a : A)
  | Raise (e : exn).
Arguments Ok {A} a.
Arguments Raise {A} e.

Definition rbind {A B} (r : result A) (k : A -> result B) : result B :=
  match r with
  | Ok a => k a
  | Raise e => Raise e
  end.

Declare Scope result_scope.
Delimit Scope result_scope with res.
Notation "x <- r ;; k" := (rbind r (fun x => k))
  (at level 100, r at next level, right associativity) : result_scope.
Local Open Scope result_scope.

(** [for x in l: body(x)], stopping at the first exception. *)
Fixpoint for_each {A} (l : list A) (body : A -> result unit) : result unit :=
  match l with
  | [] => Ok tt
  | x :: rest => _ <- body x ;; for_each rest body
  end.

(** ** Python's dynamic operators on JSON values *)
Module Py.

(** [sub in s] on two strings. *)
Definition substring (sub s : string) : bool :=
  match String.index 0 sub s with
  | Some _ => true
  | None => false
  end.

(** [v == s] for a string literal [s]. *)
Definition eq_str (v : json) (s : string) : bool :=
  match v with
  | JStr s' => String.eqb s' s
  | _ => false
  end.

(** [v in strs] for a list of strings. *)
Definition in_strings (v : json) (strs : list string) : bool :=
  existsb (eq_str v) strs.

Definition has_key (key : string) (fields : list (string * json)) : bool :=
  existsb (fun kv => String.eqb (fst kv) key) fields.

Fixpoint lookup_key (key : string) (fields : list (string * json)) : option json :=
  match fields with
  | [] => None
  | (k, v) :: rest => if String.eqb k key then Some v else lookup_key key rest
  end.

(** [key in x]: key membership on a dict, element membership on a list,
    substring test on a string, [TypeError] on anything else. *)
Definition contains (key : string) (x : json) : result bool :=
  match x with
  | JDict fields => Ok (has_key key fields)
  | JList items => Ok (existsb (fun item => eq_str item key) items)
  | JStr s => Ok (substring key s)
  | _ => Raise TypeError
  end.

Definition not_in (key : string) (x : json) : result bool :=
  b <- contains key x ;; Ok (negb b).

(** [x[key]] with a string key. *)
Definition getitem (x : json) (key : string) : result json :=
  match x with
  | JDict fields =>
      match lookup_key key fields with
      | Some v => Ok v
      | None => Raise (KeyError (JStr key))
      end
  | _ => Raise TypeError
  end.

Definition chars (s : string) : list json :=
  map (fun c => JStr (String c EmptyString)) (list_ascii_of_string s).

(** The values [for v in x] ranges over. *)
Definition iter (x : json) : result (list json) :=
  match x with
  | JList items => Ok items
  | JDict fields => Ok (map (fun kv => JStr (fst kv)) fields)
  | JStr s => Ok (chars s)
  | _ => Raise TypeError
  end.

(** [len(x)] *)
Definition len (x : json) : result nat :=
  match x with
  | JList items => Ok (length items)
  | JDict fields => Ok (length fields)
  | JStr s => Ok (String.length s)
  | _ => Raise TypeError
  end.

(** [isinstance(x, list)] *)
Definition is_list (x : json) : bool :=
  match x with
  | JList _ => true
  | _ => false
  end.

(** [x.get(key, default)]: only a dict has the method. *)
Definition get (x : json) (key : string) (default : json) : result json :=
  match x with
  | JDict fields =>
      match lookup_key key fields with
      | Some v => Ok v
      | None => Ok default
      end
  | _ => Raise AttributeError
  end.

(** [**x] in a call: the value must be a mapping. *)
Definition kwargs (x : json) : result (list (string * json)) :=
  match x with
  | JDict fields => Ok fields
  | _ => Raise TypeError
  end.

(** [x is None] *)
Definition is_none (x : json) : bool :=
  match x with
  | JNull => true
  | _ => false
  end.

End Py.

(** ** The oracle facade and the orchestrators' effects

    [LLMFacade.call(prompt)] either returns a value or raises.  A facade is
    any state machine answering prompts; a prompt is kept as the template
    that builds it together with the interpolated values. *)

Inductive prompt : Type :=
  | CreatePrompt (message_history : string)
      (* prepare_prompt("create_bpmn.txt", message_history=...) *)
  | CreateRetryPrompt (e : exn)
      (* f"Error: {str(e)}. Try again." *)
  | EditPrompt (process : json) (change_request : string)
      (* prepare_prompt("edit_bpmn.txt", process=..., change_request=...) *)
  | EditingErrorPrompt (error_message : exn)
      (* f"Editing error: {error_message}. Please provide a new edit proposal." *)
  | ApplyErrorPrompt (error_message : exn) (change_request : string)
      (* f"Error: {error_message}. Try again. Change request: {...}" *)
  | IntermediatePrompt (process : json).
      (* prepare_prompt("edit_bpmn_intermediate_step.txt", process=...) *)

Inductive outcome : Type :=
  | Returned (response : json)
  | Failed (e : exn).

(** The state threaded through an orchestrator: the facade's own state and
    four ghost counters (facade calls, runs of the proposal validator,
    attempts to apply an edit, intermediate rounds started). *)
Record world (St : Type) : Type := World {
  oracle : St;
  calls : nat;
  validations : nat;
  applies : nat;
  rounds : nat
}.
Arguments World {St} _ _ _ _ _.
Arguments oracle {St} _.
Arguments calls {St} _.
Arguments validations {St} _.
Arguments applies {St} _.
Arguments rounds {St} _.

Definition M (St A : Type) : Type := world St -> result A * world St.

Section Effects.

Context {St : Type}.

Definition ret {A} (a : A) : M St A := fun w => (Ok a, w).

Definition raise {A} (e : exn) : M St A := fun w => (Raise e, w).

Definition bind {A B} (m : M St A) (k : A -> M St B) : M St B :=
  fun w =>
    match m w with
    | (Ok a, w') => k a w'
    | (Raise e, w') => (Raise e, w')
    end.

Definition lift {A} (r : result A) : M St A := fun w => (r, w).

(** [try: body  except <class> as e: ...]: an exception of the class is
    handed to the code after the handler as [inr e]; any other exception
    propagates. *)
Definition try_except {A} (caught : exn -> bool) (body : M St A) : M St (A + exn) :=
  fun w =>
    match body w with
    | (Ok a, w') => (Ok (inl a), w')
    | (Raise e, w') => if caught e then (Ok (inr e), w') else (Raise e, w')
    end.

(** Ghost updates of the counters. *)
Definition add_validation (w : world St) : world St :=
  World (oracle w) (calls w) (S (validations w)) (applies w) (rounds w).

Definition add_apply (w : world St) : world St :=
  World (oracle w) (calls w) (validations w) (S (applies w)) (rounds w).

Definition add_round (w : world St) : world St :=
  World (oracle w) (calls w) (validations w) (applies w) (S (rounds w)).

Definition add_call (s' : St) (w : world St) : world St :=
  World s' (S (calls w)) (validations w) (applies w) (rounds w).

Definition count_validation : M St unit := fun w => (Ok tt, add_validation w).

Definition count_apply : M St unit := fun w => (Ok tt, add_apply w).

Definition count_round : M St unit := fun w => (Ok tt, add_round w).

(** [llm_facade.call(prompt)] *)
Definition llm_call (call : St -> prompt -> outcome * St) (p : prompt) : M St json :=
  fun w =>
    match call (oracle w) p with
    | (Returned response, s') => (Ok response, add_call s' w)
    | (Failed e, s') => (Raise e, add_call s' w)
    end.

End Effects.

Notation "x <~ m ;; k" := (bind m (fun x => k))
  (at level 100, m at next level, right associativity) : result_scope.

Definition is_ValueError (e : exn) : bool :=
  match e with ValueError _ => true | _ => false end.

Definition is_ProcessException (e : exn) : bool :=
  match e with ProcessException _ => true | _ => false end.

(** [except Exception]: every exception of the model derives from it. *)
Definition is_Exception (e : exn) : bool := true.

(** ** BpmnModelingService: the process validator *)
Module BpmnModelingService.

Section Validator.

(** [[e.value for e in BPMNElementType]]: the enum lives in
    [bpmn_assistant/core/enums.py]; its values are a parameter here. *)
Variable supported_elements : list string.

(** [element["type"]] is read once for the tests that follow each other
    on it. *)
Definition _validate_element (element : json) : result unit :=
  no_id <- Py.not_in "id" element ;;
  if no_id : bool then Raise (Exception (MissingId element)) else
  no_type <- Py.not_in "type" element ;;
  if no_type : bool then Raise (Exception (MissingType element)) else
  ty <- Py.getitem element "type" ;;
  if negb (Py.in_strings ty supported_elements)
  then Raise (Exception (UnsupportedType ty supported_elements)) else
  if Py.in_strings ty ["task"; "userTask"; "serviceTask"] then
    no_label <- Py.not_in "label" element ;;
    if no_label : bool then Raise (Exception (TaskMissingLabel element))
    else Ok tt
  else if Py.eq_str ty "exclusiveGateway" then
    no_label <- Py.not_in "label" element ;;
    if no_label : bool then Raise (Exception (ExclusiveMissingLabel element)) else
    no_branches <- Py.not_in "branches" element ;;
    invalid <- (if no_branches : bool then Ok true
                else branches <- Py.getitem element "branches" ;;
                     Ok (negb (Py.is_list branches))) ;;
    if invalid : bool then Raise (Exception (ExclusiveInvalidBranches element)) else
    branches <- Py.getitem element "branches" ;;
    bs <- Py.iter branches ;;
    for_each bs (fun branch =>
      no_condition <- Py.not_in "condition" branch ;;
      bad <- (if no_condition : bool then Ok true else Py.not_in "path" branch) ;;
      if bad : bool then Raise (Exception (ExclusiveInvalidBranch branch))
      else Ok tt)
  else if Py.eq_str ty "parallelGateway" then
    no_branches <- Py.not_in "branches" element ;;
    invalid <- (if no_branches : bool then Ok true
                else branches <- Py.getitem element "branches" ;;
                     Ok (negb (Py.is_list branches))) ;;
    if invalid : bool then Raise (Exception (ParallelInvalidBranches element))
    else Ok tt
  else Ok tt.

(** The body of [for element in process] in [_validate_bpmn]; [recur]
    stands for the recursive call on a branch body. *)
Definition validate_bpmn_body (recur : json -> result unit)
    (element : json) : result unit :=
  _ <- _validate_element element ;;
  ty <- Py.getitem element "type" ;;
  _ <- (if Py.eq_str ty "exclusiveGateway" then
          branches <- Py.getitem element "branches" ;;
          bs <- Py.iter branches ;;
          for_each bs (fun branch =>
            path <- Py.getitem branch "path" ;;
            recur path)
        else Ok tt) ;;
  ty <- Py.getitem element "type" ;;
  if Py.eq_str ty "parallelGateway" then
    branches <- Py.getitem element "branches" ;;
    bs <- Py.iter branches ;;
    for_each bs (fun branch => recur branch)
  else Ok tt.

(** [_validate_bpmn] calls itself on branch bodies; [fuel] bounds the
    depth of these calls, and running out of it is the interpreter's
    [RecursionError].  The [try: ... except Exception as e: raise e]
    around the loop re-raises what it catches and is left out. *)
Fixpoint validate_bpmn_fuel (fuel : nat) (process : json) : result unit :=
  match fuel with
  | 0 => Raise RecursionError
  | S fuel' =>
      elements <- Py.iter process ;;
      for_each elements (validate_bpmn_body (validate_bpmn_fuel fuel'))
  end.

(** [_validate_bpmn] run on a stack with room for the whole tree: the
    nesting depth of the tree is always enough fuel (lemmas
    [validate_bpmn_fuel_stable] and [validate_bpmn_no_RecursionError]
    below).  This is the function as its text reads; what the bound of
    the interpreter's stack adds to it is [validate_bpmn_bounded]. *)
Definition _validate_bpmn (process : json) : result unit :=
  validate_bpmn_fuel (S (json_depth process)) process.

(** The interpreter's stack is bounded.  [validate_bpmn_bounded frames]
    is [_validate_bpmn] called with room for [frames] nested activations
    of itself: each recursive call on a branch body takes one, and a call
    made when none is left raises [RecursionError], which
    [except Exception as e: raise e] passes on.  The call of
    [_validate_element] needs stack below its caller too (its own frame,
    the iteration over the enum, the formatting of an element into a
    message); how much is the interpreter's and the library's business.
    [overflows frames element] tells whether that call, made with [frames]
    activations to spare, runs out of stack: it raises [RecursionError]
    then, and does what [_validate_element] does otherwise. *)
Variable overflows : nat -> json -> bool.

Fixpoint validate_bpmn_bounded (frames : nat) (process : json) : result unit :=
  match frames with
  | 0 => Raise RecursionError
  | S frames' =>
      elements <- Py.iter process ;;
      for_each elements (fun element =>
        if overflows frames' element then Raise RecursionError
        else validate_bpmn_body (validate_bpmn_bounded frames') element)
  end.

End Validator.

Section Creation.

Context {St : Type}.
Variable supported_elements : list string.
Variable call : St -> prompt -> outcome * St.

(** The [while attempts < max_retries] loop of [create_bpmn];
    [remaining] is [max_retries - attempts]. *)
Fixpoint create_bpmn_loop (remaining attempts : nat) (prompt : prompt) : M St json :=
  match remaining with
  | 0 => raise (Exception (Text
           "Max number of retries reached. Could not create the BPMN process."))
  | S remaining' =>
      let attempts := attempts + 1 in
      response <~ llm_call call prompt ;;
      r <~ try_except is_Exception
             (process <~ lift (Py.getitem response "process") ;;
              _ <~ lift (_validate_bpmn supported_elements process) ;;
              ret process) ;;
      match r with
      | inl process => ret process
      | inr e =>
          (* process_info = "N/A" if response is None
                            else response.get("process", ...) *)
          _ <~ lift (if Py.is_none response then Ok (JStr "N/A")
                     else Py.get response "process" (JStr "No process in response")) ;;
          create_bpmn_loop remaining' attempts (CreateRetryPrompt e)
      end
  end.

Definition create_bpmn (message_history : string) (max_retries : nat) : M St json :=
  create_bpmn_loop max_retries 0 (CreatePrompt message_history).

End Creation.

End BpmnModelingService.

(** ** BpmnEditorService: the proposal validator and the edit orchestrator *)
Module BpmnEditorService.

Definition _validate_llm_response (response : json) (is_first_edit : bool) : result bool :=
  stop_now <- (if negb is_first_edit then Py.contains "stop" response else Ok false) ;;
  if stop_now : bool then Ok true else
  no_function <- Py.not_in "function" response ;;
  incomplete <- (if no_function : bool then Ok true
                 else Py.not_in "arguments" response) ;;
  no_keys <- (if incomplete : bool then Py.not_in "stop" response else Ok false) ;;
  if no_keys : bool then
    Raise (ValueError (Text
      "Function call should contain 'function' and 'arguments' keys, or a 'stop' key."))
  else
  function_to_call <- Py.getitem response "function" ;;
  args <- Py.getitem response "arguments" ;;
  if Py.eq_str function_to_call "delete_element" then
    missing <- Py.not_in "element_id" args ;;
    if missing : bool then
      Raise (ValueError (Text "Arguments should contain 'element_id' key."))
    else
    n <- Py.len args ;;
    if Nat.ltb 1 n then
      Raise (ValueError (Text "Arguments should contain only 'element_id' key."))
    else Ok true
  else if Py.eq_str function_to_call "redirect_branch" then
    no_condition <- Py.not_in "branch_condition" args ;;
    missing <- (if no_condition : bool then Ok true else Py.not_in "next_id" args) ;;
    if missing : bool then
      Raise (ValueError (Text
        "Arguments should contain 'branch_condition' and 'next_id' keys."))
    else
    n <- Py.len args ;;
    if Nat.ltb 2 n then
      Raise (ValueError (Text
        "Arguments should contain only 'branch_condition' and 'next_id' keys."))
    else Ok true
  else if Py.eq_str function_to_call "add_element" then
    missing <- Py.not_in "element" args ;;
    if missing : bool then
      Raise (ValueError (Text "Arguments should contain 'element' key."))
    else
    before <- Py.contains "before_id" args ;;
    both <- (if before : bool then Py.contains "after_id" args else Ok false) ;;
    if both : bool then
      Raise (ValueError (Text
        "Only one of 'before_id' and 'after_id' should be provided."))
    else
    no_before <- Py.not_in "before_id" args ;;
    neither <- (if no_before : bool then Py.not_in "after_id" args else Ok false) ;;
    if neither : bool then
      Raise (ValueError (Text "Either 'before_id' or 'after_id' should be provided."))
    else
    n <- Py.len args ;;
    if Nat.ltb 2 n then
      Raise (ValueError (Text
        "Arguments should contain only 'element' and either 'before_id' or 'after_id' keys."))
    else Ok true
  else if Py.eq_str function_to_call "move_element" then
    missing <- Py.not_in "element_id" args ;;
    if missing : bool then
      Raise (ValueError (Text "Arguments should contain 'element_id' key."))
    else
    before <- Py.contains "before_id" args ;;
    both <- (if before : bool then Py.contains "after_id" args else Ok false) ;;
    if both : bool then
      Raise (ValueError (Text
        "Only one of 'before_id' and 'after_id' should be provided."))
    else
    no_before <- Py.not_in "before_id" args ;;
    neither <- (if no_before : bool then Py.not_in "after_id" args else Ok false) ;;
    if neither : bool then
      Raise (ValueError (Text "Either 'before_id' or 'after_id' should be provided."))
    else
    n <- Py.len args ;;
    if Nat.ltb 2 n then
      Raise (ValueError (Text
        "Arguments should contain only 'element_id' and either 'before_id' or 'after_id' keys."))
    else Ok true
  else if Py.eq_str function_to_call "update_element" then
    missing <- Py.not_in "new_element" args ;;
    if missing : bool then
      Raise (ValueError (Text "Arguments should contain 'new_element' key."))
    else
    n <- Py.len args ;;
    if Nat.ltb 1 n then
      Raise (ValueError (Text "Arguments should contain only 'new_element' key."))
    else Ok true
  else Raise (ValueError (FunctionNotFound function_to_call)).

(** The five edit functions imported from
    [bpmn_assistant.services.process_editing] are parameters of the
    orchestrator.  The specification describes them as pure transforms
    that build a fresh tree: an edit function takes the process and the
    keyword arguments and returns the wrapper [{"process": tree}] or
    raises, and it leaves the process it is given untouched. *)
Record edit_library : Type := EditLibrary {
  delete_element : json -> list (string * json) -> result json;
  redirect_branch : json -> list (string * json) -> result json;
  add_element : json -> list (string * json) -> result json;
  move_element : json -> list (string * json) -> result json;
  update_element : json -> list (string * json) -> result json
}.

Section Editor.

Context {St : Type}.
Variable call : St -> prompt -> outcome * St.   (* self.llm_facade *)
Variable lib : edit_library.
Variable self_process : json.                  (* self.process *)
Variable change_request : string.              (* self.change_request *)

(** [edit_functions[function_to_call]]: a lookup in a dict with five
    string keys. *)
Definition edit_functions (function_to_call : json)
  : result (json -> list (string * json) -> result json) :=
  match function_to_call with
  | JStr name =>
      if String.eqb name "delete_element" then Ok (delete_element lib)
      else if String.eqb name "redirect_branch" then Ok (redirect_branch lib)
      else if String.eqb name "add_element" then Ok (add_element lib)
      else if String.eqb name "move_element" then Ok (move_element lib)
      else if String.eqb name "update_element" then Ok (update_element lib)
      else Raise (KeyError function_to_call)
  | JList _ | JDict _ => Raise TypeError          (* unhashable key *)
  | _ => Raise (KeyError function_to_call)
  end.

Definition _update_process (process edit_proposal : json) : result json :=
  function_to_call <- Py.getitem edit_proposal "function" ;;
  args <- Py.getitem edit_proposal "arguments" ;;
  f <- edit_functions function_to_call ;;
  kwargs <- Py.kwargs args ;;
  res <- f process kwargs ;;
  Py.getitem res "process".

(** The [while] loop of [_attempt_process_update_with_retries];
    [remaining] is [max_retries - attempts]. *)
Fixpoint attempt_process_update_loop (remaining attempts : nat)
    (process edit_proposal : json) : M St json :=
  match remaining with
  | 0 => raise (Exception (Text
           "Max number of retries reached. Process not fully edited."))
  | S remaining' =>
      let attempts := attempts + 1 in
      r <~ try_except is_ProcessException
             (_ <~ count_apply ;;
              lift (_update_process process edit_proposal)) ;;
      match r with
      | inl updated_process => ret updated_process
      | inr e =>
          edit_proposal <~ llm_call call (ApplyErrorPrompt e change_request) ;;
          stop <~ lift (Py.contains "stop" edit_proposal) ;;
          if stop : bool then ret process
          else attempt_process_update_loop remaining' attempts process edit_proposal
      end
  end.

Definition _attempt_process_update_with_retries
    (process edit_proposal : json) (max_retries : nat) : M St json :=
  attempt_process_update_loop max_retries 0 process edit_proposal.

(** The [while] loop of [_get_initial_edit_proposal]. *)
Fixpoint initial_edit_proposal_loop (remaining attempts : nat)
    (response : json) : M St json :=
  match remaining with
  | 0 => raise (Exception (Text "Max number of retries reached."))
  | S remaining' =>
      let attempts := attempts + 1 in
      r <~ try_except is_ValueError
             (_ <~ count_validation ;;
              _ <~ lift (_validate_llm_response response true) ;;
              ret response) ;;
      match r with
      | inl response => ret response
      | inr e =>
          response <~ llm_call call (EditingErrorPrompt e) ;;
          initial_edit_proposal_loop remaining' attempts response
      end
  end.

Definition _get_initial_edit_proposal (max_retries : nat) : M St json :=
  response <~ llm_call call (EditPrompt self_process change_request) ;;
  initial_edit_proposal_loop max_retries 0 response.

(** The [while] loop of [_get_intermediate_edit_proposal];
    [error_message] is bound once a first attempt has failed. *)
Fixpoint intermediate_edit_proposal_loop (remaining attempts : nat)
    (updated_process : json) (error_message : option exn) : M St json :=
  match remaining with
  | 0 => raise (Exception (Text "Max number of retries reached."))
  | S remaining' =>
      let attempts := attempts + 1 in
      r <~ try_except is_ValueError
             (prompt <~ (if Nat.eqb attempts 1
                         then ret (IntermediatePrompt updated_process)
                         else match error_message with
                              | Some e => ret (EditingErrorPrompt e)
                              | None => raise UnboundLocalError
                              end) ;;
              response <~ llm_call call prompt ;;
              _ <~ count_validation ;;
              _ <~ lift (_validate_llm_response response false) ;;
              ret response) ;;
      match r with
      | inl response => ret response
      | inr e =>
          intermediate_edit_proposal_loop remaining' attempts updated_process (Some e)
      end
  end.

Definition _get_intermediate_edit_proposal
    (updated_process : json) (max_retries : nat) : M St json :=
  intermediate_edit_proposal_loop max_retries 0 updated_process None.

Definition _apply_initial_edit : M St json :=
  response <~ _get_initial_edit_proposal 3 ;;
  _attempt_process_update_with_retries self_process response 3.

(** [for _ in range(max_num_of_iterations)] *)
Fixpoint _apply_intermediate_edits (updated_process : json)
    (max_num_of_iterations : nat) : M St json :=
  match max_num_of_iterations with
  | 0 => raise (Exception (Text
           "Max number of iterations reached. Process not fully edited."))
  | S iterations_left =>
      _ <~ count_round ;;
      response <~ _get_intermediate_edit_proposal updated_process 3 ;;
      stop <~ lift (Py.contains "stop" response) ;;
      if stop : bool then ret updated_process
      else
        updated_process <~
          _attempt_process_update_with_retries updated_process response 3 ;;
        _apply_intermediate_edits updated_process iterations_left
  end.

Definition edit_bpmn : M St json :=
  updated_process <~ _apply_initial_edit ;;
  _apply_intermediate_edits updated_process 7.

End Editor.

End BpmnEditorService.

(** ** Facades and edit libraries used to run the orchestrators on
    concrete inputs *)

(** A facade that answers every prompt with the same value. *)
Definition constant_facade (response : json) : unit -> prompt -> outcome * unit :=
  fun s _ => (Returned response, s).

(** A facade whose every call raises [e]. *)
Definition failing_facade (e : exn) : unit -> prompt -> outcome * unit :=
  fun s _ => (Failed e, s).

(** A facade that replays a script, one entry per call, and raises once
    the script is used up. *)
Definition scripted_facade : list outcome -> prompt -> outcome * list outcome :=
  fun script _ =>
    match script with
    | [] => (Failed (OtherException "EndOfScript"), [])
    | o :: script' => (o, script')
    end.

Definition world0 {St} (s : St) : world St := World s 0 0 0 0.

(** ** Cost of a computation in facade calls: at most [ok] when it
    returns, at most [err] when it raises. *)
Definition costs {St A} (m : M St A) (ok err : nat) : Prop :=
  forall w,
    match m w with
    | (Ok _, w') => calls w' <= calls w + ok
    | (Raise _, w') => calls w' <= calls w + err
    end.

(** ** Vocabulary for the statements about the orchestrators *)

(** Every answer of the facade is a returned value satisfying [P]. *)
Definition always_returns {St} (call : St -> prompt -> outcome * St)
    (P : json -> Prop) : Prop :=
  forall s p, exists response s', call s p = (Returned response, s') /\ P response.

(** A proposal that passes the proposal validator, is not a stop signal,
    and that the edit library refuses on every tree with a
    [ProcessException]. *)
Definition structurally_invalid (lib : BpmnEditorService.edit_library)
    (proposal : json) : Prop :=
  BpmnEditorService._validate_llm_response proposal true = Ok true /\
  Py.contains "stop" proposal = Ok false /\
  forall process, exists m,
    BpmnEditorService._update_process lib process proposal
      = Raise (ProcessException m).

(** A proposal that the proposal validator refuses with its [ValueError]. *)
Definition refused_with_ValueError (proposal : json) : Prop :=
  exists m, BpmnEditorService._validate_llm_response proposal true
              = Raise (ValueError m).

(** An edit library whose every function refuses with a [ProcessException]. *)
Definition rejecting_library : BpmnEditorService.edit_library :=
  let refuse := fun (_ : json) (_ : list (string * json)) =>
    Raise (A:=json) (ProcessException (Text "Element not found")) in
  BpmnEditorService.EditLibrary refuse refuse refuse refuse refuse.

(** An edit library whose every function answers with the empty process. *)
Definition emptying_library : BpmnEditorService.edit_library :=
  let clear := fun (_ : json) (_ : list (string * json)) =>
    Ok (JDict [("process", JList [])]) in
  BpmnEditorService.EditLibrary clear clear clear clear clear.

Definition delete_proposal (element_id : string) : json :=
  JDict [("function", JStr "delete_element");
         ("arguments", JDict [("element_id", JStr element_id)])].

(** [k] consecutive intermediate rounds run to completion from tree [p] in
    world [w]: in each, the proposal layer returns a proposal that is not a
    stop signal and the apply layer returns the next tree. *)
Inductive completes_rounds {St} (call : St -> prompt -> outcome * St)
    (lib : BpmnEditorService.edit_library) (change_request : string)
  : nat -> json -> world St -> json -> world St -> Prop :=
  | rounds_none p w : completes_rounds call lib change_request 0 p w p w
  | rounds_next k p w response w1 p' w2 p'' w3 :
      BpmnEditorService._get_intermediate_edit_proposal call p 3 (add_round w)
        = (Ok response, w1) ->
      Py.contains "stop" response = Ok false ->
      BpmnEditorService._attempt_process_update_with_retries call lib
        change_request p response 3 w1 = (Ok p', w2) ->
      completes_rounds call lib change_request k p' w2 p'' w3 ->
      completes_rounds call lib change_request (S k) p w p'' w3.

(** A computation that leaves the ghost counter [f] as it found it. *)
Definition preserves {St A} (f : world St -> nat) (m : M St A) : Prop :=
  forall w, f (snd (m w)) = f w.

(** A proposal carrying a well-formed edit and a stop marker at once. *)
Definition delete_and_stop (element_id : string) : json :=
  JDict [("function", JStr "delete_element");
         ("arguments", JDict [("element_id", JStr element_id)]);
         ("stop", JBool true)].

Definition stop_proposal : json := JDict [("stop", JBool true)].

Definition task (id label : string) : json :=
  JDict [("id", JStr id); ("type", JStr "task"); ("label", JStr label)].

(** ** The operation grammar, as the specification words it *)

(** The keys of an arguments mapping, as a set. *)
Definition key_set (fields : list (string * json)) : gset string :=
  list_to_set fields.*1.

(** Verb -> the exact key sets it admits (one set, or two where exactly
    one of [before_id] and [after_id] is required); no set for an unknown
    verb. *)
Definition required_key_sets (verb : string) : list (gset string) :=
  if String.eqb verb "delete_element" then [ {["element_id"]} ]
  else if String.eqb verb "redirect_branch" then [ {["branch_condition"; "next_id"]} ]
  else if String.eqb verb "add_element" then
    [ {["element"; "before_id"]}; {["element"; "after_id"]} ]
  else if String.eqb verb "move_element" then
    [ {["element_id"; "before_id"]}; {["element_id"; "after_id"]} ]
  else if String.eqb verb "update_element" then [ {["new_element"]} ]
  else [].

Definition matches_grammar (function_to_call : json)
    (fields : list (string * json)) : Prop :=
  exists verb, function_to_call = JStr verb /\
               key_set fields ∈ required_key_sets verb.

(** A first proposal that follows the grammar: an object with a verb
    under "function" and, under "arguments", a mapping whose key set is
    one the verb admits.  A stop marker is no first proposal. *)
Definition follows_grammar (proposal : json) : Prop :=
  exists function_to_call fields,
    Py.getitem proposal "function" = Ok function_to_call /\
    Py.getitem proposal "arguments" = Ok (JDict fields) /\
    matches_grammar function_to_call fields.

(** A grammatically invalid first proposal, in the words of the
    specification: any value that does not follow the grammar. *)
Definition grammatically_invalid (proposal : json) : Prop :=
  ~ follows_grammar proposal.

(** Two grammatically invalid proposals: the arguments are [null], the
    arguments are a list. *)
Definition null_arguments_proposal : json :=
  JDict [("function", JStr "delete_element"); ("arguments", JNull)].

Definition list_arguments_proposal : json :=
  JDict [("function", JStr "delete_element");
         ("arguments", JList [JStr "element_id"])].

(** ** Vocabulary for the statements about the process validator *)

(** [occurs e process]: the validator's traversal of [process] meets the
    element [e], at the top level or inside a branch of a gateway, at any
    depth. *)
Inductive occurs (e : json) : json -> Prop :=
  | occurs_here process elements :
      Py.iter process = Ok elements ->
      e ∈ elements ->
      occurs e process
  | occurs_exclusive process elements gateway ty branches bs branch path :
      Py.iter process = Ok elements ->
      gateway ∈ elements ->
      Py.getitem gateway "type" = Ok ty ->
      Py.eq_str ty "exclusiveGateway" = true ->
      Py.getitem gateway "branches" = Ok branches ->
      Py.iter branches = Ok bs ->
      branch ∈ bs ->
      Py.getitem branch "path" = Ok path ->
      occurs e path ->
      occurs e process
  | occurs_parallel process elements gateway ty branches bs branch :
      Py.iter process = Ok elements ->
      gateway ∈ elements ->
      Py.getitem gateway "type" = Ok ty ->
      Py.eq_str ty "parallelGateway" = true ->
      Py.getitem gateway "branches" = Ok branches ->
      Py.iter branches = Ok bs ->
      branch ∈ bs ->
      occurs e branch ->
      occurs e process.

(** The exception's message interpolates the element [e] itself. *)
Definition names_element (x : exn) (e : json) : Prop :=
  match x with
  | Exception (MissingId e')
  | Exception (MissingType e')
  | Exception (TaskMissingLabel e')
  | Exception (ExclusiveMissingLabel e')
  | Exception (ExclusiveInvalidBranches e')
  | Exception (ParallelInvalidBranches e') => e' = e
  | _ => False
  end.

(** What an error of the element check carries: the element itself, or
    for an unrecognized type the type value and the supported types, or for
    a malformed branch of an exclusive gateway that branch; a value that is
    not even an object surfaces as the interpreter's [TypeError]. *)
Definition element_error (supported_elements : list string) (e : json)
    (x : exn) : Prop :=
  names_element x e \/
  (exists ty, Py.getitem e "type" = Ok ty /\
              x = Exception (UnsupportedType ty supported_elements)) \/
  (exists branches bs branch,
     Py.getitem e "branches" = Ok branches /\ Py.iter branches = Ok bs /\
     branch ∈ bs /\
     (x = Exception (ExclusiveInvalidBranch branch) \/ x = TypeError)) \/
  (x = TypeError /\ forall fields, e <> JDict fields).

Definition task_like (e : json) : Prop :=
  exists ty, Py.getitem e "type" = Ok ty /\
             Py.in_strings ty ["task"; "userTask"; "serviceTask"] = true.

Definition has_nonempty_label (e : json) : Prop :=
  exists s, Py.getitem e "label" = Ok (JStr s) /\ s <> "".

(** Modelled from the spec: the values of [BPMNElementType]
    ([bpmn_assistant/core/enums.py]), as the element types the
    specification lists; used for the runs on concrete trees. *)
Definition spec_element_types : list string :=
  ["task"; "userTask"; "serviceTask"; "exclusiveGateway"; "parallelGateway"].

Definition exclusive_gateway (id : string) (paths : list (list json)) : json :=
  JDict [("id", JStr id); ("type", JStr "exclusiveGateway"); ("label", JStr id);
         ("branches",
          JList (map (fun path => JDict [("condition", JStr "c"); ("path", JList path)])
                   paths))].

Definition parallel_gateway (id : string) (branches : list (list json)) : json :=
  JDict [("id", JStr id); ("type", JStr "parallelGateway");
         ("branches", JList (map JList branches))].

(** A script that makes [edit_bpmn] spend its whole budget of facade
    calls: every proposal layer gets two invalid objects before a valid
    proposal, and every apply layer is refused three times, the third
    re-prompt bringing a stop proposal. *)
Definition exhausting_layer : list outcome :=
  [Returned (JDict []); Returned (JDict []); Returned (delete_proposal "Z");
   Returned (delete_proposal "Z"); Returned (delete_proposal "Z");
   Returned stop_proposal].

Definition exhausting_script : list outcome :=
  concat (replicate 8 exhausting_layer).

(** ** Vocabulary for further statements about the two services *)

(** [response] is a value the facade returns from some state on some
    prompt. *)
Definition answered_by {St} (call : St -> prompt -> outcome * St)
    (response : json) : Prop :=
  exists s p s', call s p = (Returned response, s').

(** The facade never returns a value in which ["stop" in value] holds. *)
Definition never_stops {St} (call : St -> prompt -> outcome * St) : Prop :=
  forall s p response s',
    call s p = (Returned response, s') -> Py.contains "stop" response <> Ok true.

(** [built_by lib k p t]: the tree [t] comes from [p] by at most [k]
    successful runs of [_update_process], each on the tree the one before
    returned. *)
Inductive built_by (lib : BpmnEditorService.edit_library)
  : nat -> json -> json -> Prop :=
  | built_none k p : built_by lib k p p
  | built_step k p proposal p' t :
      BpmnEditorService._update_process lib p proposal = Ok p' ->
      built_by lib k p' t ->
      built_by lib (S k) p t.

(** The five verbs [edit_functions] has an entry for. *)
Definition known_verbs : list string :=
  ["delete_element"; "redirect_branch"; "add_element"; "move_element";
   "update_element"].

(** A proposal [_update_process] can hand to the library: a known verb
    under "function" and a mapping under "arguments". *)
Definition dispatchable (proposal : json) : Prop :=
  exists verb fields,
    Py.getitem proposal "function" = Ok (JStr verb) /\ verb ∈ known_verbs /\
    Py.getitem proposal "arguments" = Ok (JDict fields).

(** Values on which [in] raises: [None], booleans and numbers. *)
Definition is_scalar (x : json) : bool :=
  match x with
  | JNull | JBool _ | JNum _ => true
  | _ => false
  end.

(** An answer to [create_bpmn] that does not carry a valid process but on
    which the handler's [response.get] works: [None], or a dict whose
    "process" entry is missing or invalid. *)
Definition unusable_answer (supported_elements : list string)
    (response : json) : Prop :=
  response = JNull \/
  exists fields,
    response = JDict fields /\
    (forall process,
       Py.lookup_key "process" fields = Some process ->
       exists e, BpmnModelingService._validate_bpmn supported_elements process
                 = Raise e).


(** ** BpmnModelingService.edit_bpmn

    [define_change_request] belongs to
    [bpmn_assistant.services.process_editing] and is a parameter: a
    computation on the facade that returns the change request. *)
Definition modeling_service_edit_bpmn {St}
    (define_change_request : json -> string -> M St string)
    (call : St -> prompt -> outcome * St)
    (lib : BpmnEditorService.edit_library)
    (process : json) (message_history : string) : M St json :=
  change_request <~ define_change_request process message_history ;;
  BpmnEditorService.edit_bpmn call lib process change_request.

(** ** OpenAIProvider ([core/provider_impl/openai_provider.py]) *)
Module OpenAIProvider.

(** [OutputMode] and [MessageRole] are enums of [core/enums.py]; the
    provider refers to the members [JSON], [TEXT] and [ASSISTANT], any
    other member is kept by its name. *)
Inductive OutputMode : Type :=
  | JSON
  | TEXT
  | OtherOutputMode (name : string).

Inductive MessageRole : Type :=
  | ASSISTANT
  | OtherRole (name : string).

(** A chat message, [{"role": ..., "content": ...}]. *)
Record message : Type := Message {
  role : string;
  content : string
}.

(** What [json.loads] does with a string: it returns the parsed value,
    raises [JSONDecodeError], or raises an exception of another class (a
    plain [ValueError] for an integer literal beyond the digit limit, a
    [RecursionError] for input nested too deep). *)
Inductive loaded : Type :=
  | Parsed (result : json)
  | JSONDecodeError
  | LoadsRaised (e : exn).

(** The exceptions the provider raises, with the values their messages
    interpolate; [ClientError] is whatever the OpenAI client raises and
    [LoadsError] what [json.loads] raises other than [JSONDecodeError],
    both passed on as they are. *)
Inductive provider_exn : Type :=
  | EmptyResponse                                  (* ValueError *)
  | InvalidJsonValue (result : json)               (* ValueError *)
  | InvalidJson                                    (* Exception *)
  | UnsupportedOutputMode (output_mode : OutputMode) (* ValueError *)
  | IndexError
  | ClientError (e : exn)
  | LoadsError (e : exn).

Definition is_ValueError (e : provider_exn) : bool :=
  match e with
  | EmptyResponse | InvalidJsonValue _ | UnsupportedOutputMode _ => true
  | ClientError (ValueError _) | LoadsError (ValueError _) => true
  | _ => false
  end.

(** The keyword arguments of [client.chat.completions.create]; a key that
    is not passed is [None]. *)
Record request (float : Type) : Type := Request {
  req_model : string;
  req_response_format : option string;
  req_messages : list message;
  req_max_tokens : option Z;
  req_temperature : option float;
  req_stream : bool
}.
Arguments Request {float} _ _ _ _ _ _.
Arguments req_model {float} _.
Arguments req_response_format {float} _.
Arguments req_messages {float} _.
Arguments req_max_tokens {float} _.
Arguments req_temperature {float} _.
Arguments req_stream {float} _.

(** An item of a streamed response: a [ChatCompletionChunk] with the
    [delta.content] of each of its choices, or some other object. *)
Inductive chunk : Type :=
  | CompletionChunk (choices : list (option string))
  | OtherObject.

Definition is_dict (x : json) : bool :=
  match x with
  | JDict _ => true
  | _ => false
  end.

Section Provider.

(** The type of [temperature]; the provider only passes it on. *)
Variable float : Type.
(** [json.loads] *)
Variable loads : string -> loaded.
(** [self.client.chat.completions.create], called on the parameters: the
    [message.content] of each choice of the response, or the exception of
    the client. *)
Variable create : request float -> exn + list (option string).
(** The same with [stream=True]: the items of the streamed response. *)
Variable create_stream : request float -> exn + list chunk.
(** [OpenAIModels.O1.value], [OpenAIModels.O3_MINI.value] and
    [[m.value for m in OpenAIModels]]. *)
Variable O1 O3_MINI : string.
Variable openai_models : list string.

Variable output_mode : OutputMode.                (* self.output_mode *)

(** Only [JSONDecodeError] is caught and replaced; the [ValueError] for
    a value that is not a dict is raised inside the [try] and passes the
    [except] clause, as does any other exception of [json.loads]. *)
Definition _process_response (raw_output : string) : provider_exn + json :=
  match output_mode with
  | JSON =>
      match loads raw_output with
      | Parsed result =>
          if negb (is_dict result) then inl (InvalidJsonValue result)
          else inr result
      | JSONDecodeError => inl InvalidJson
      | LoadsRaised e => inl (LoadsError e)
      end
  | TEXT => inr (JStr raw_output)
  | _ => inl (UnsupportedOutputMode output_mode)
  end.

Definition is_o_series (model : string) : bool :=
  existsb (String.eqb model) [O1; O3_MINI].

(** [call]: the result and the [messages] list as the call leaves it
    (the list is the caller's, and it is appended to in place). *)
Definition call (model prompt : string) (messages : list message)
    (max_tokens : Z) (temperature : float)
  : (provider_exn + json) * list message :=
  let messages := (messages ++ [Message "user" prompt])%list in
  let response_format :=
    match output_mode with JSON => "json_object" | _ => "text" end in
  let params :=
    if is_o_series model
    then Request model (Some response_format) messages None None false
    else Request model (Some response_format) messages
           (Some max_tokens) (Some temperature) false in
  (match create params with
   | inl e => inl (ClientError e)
   | inr choices =>
       match choices with
       | [] => inl IndexError                      (* response.choices[0] *)
       | None :: _ => inl EmptyResponse
       | Some raw_output :: _ => _process_response raw_output
       end
   end,
   messages).

(** The loop of [stream] over the items of the response, run to the end:
    what it yields, in order, and the exception that ends it, if any. *)
Fixpoint stream_items (items : list chunk) : list string * option provider_exn :=
  match items with
  | [] => ([], None)
  | OtherObject :: rest => stream_items rest
  | CompletionChunk [] :: _ => ([], Some IndexError)   (* chunk.choices[0] *)
  | CompletionChunk (None :: _) :: rest => stream_items rest
  | CompletionChunk (Some text :: _) :: rest =>
      let '(yielded, e) := stream_items rest in (text :: yielded, e)
  end.

(** [stream], consumed to the end. *)
Definition stream (model prompt : string) (messages : list message)
    (max_tokens : Z) (temperature : float)
  : (list string * option provider_exn) * list message :=
  let messages := (messages ++ [Message "user" prompt])%list in
  (match create_stream (Request model None messages
                          (Some max_tokens) (Some temperature) true) with
   | inl e => ([], Some (ClientError e))
   | inr items => stream_items items
   end,
   messages).

Definition get_initial_messages : list message :=
  match output_mode with
  | JSON => [Message "system"
               "You are a helpful assistant designed to output JSON."]
  | _ => []
  end.

Definition add_message (messages : list message) (r : MessageRole)
    (text : string) : list message :=
  let message_role :=
    match r with ASSISTANT => "assistant" | _ => "user" end in
  (messages ++ [Message message_role text])%list.

Definition check_model_compatibility (model : string) : bool :=
  existsb (String.eqb model) openai_models.

(** An operation on a message history. *)
Inductive operation : Type :=
  | DoCall (model prompt : string) (max_tokens : Z) (temperature : float)
  | DoStream (model prompt : string) (max_tokens : Z) (temperature : float)
  | DoAddMessage (r : MessageRole) (text : string).

(** The message history after one operation, and after a sequence. *)
Definition after (messages : list message) (op : operation) : list message :=
  match op with
  | DoCall model prompt max_tokens temperature =>
      snd (call model prompt messages max_tokens temperature)
  | DoStream model prompt max_tokens temperature =>
      snd (stream model prompt messages max_tokens temperature)
  | DoAddMessage r text => add_message messages r text
  end.

Definition history (ops : list operation) : list message :=
  fold_left after ops get_initial_messages.

End Provider.

End OpenAIProvider.


(** ** Vocabulary for the statements about the provider *)

(** What a streamed item contributes: the content of its first choice,
    when it is a chunk and that content is not [None]. *)
Definition first_content (item : OpenAIProvider.chunk) : option string :=
  match item with
  | OpenAIProvider.CompletionChunk (Some text :: _) => Some text
  | _ => None
  end.

(** A streamed item on which [chunk.choices[0]] can be read. *)
Definition has_choice (item : OpenAIProvider.chunk) : Prop :=
  item <> OpenAIProvider.CompletionChunk [].

Definition is_system (m : OpenAIProvider.message) : bool :=
  String.eqb (OpenAIProvider.role m) "system".


(** A [define_change_request] that asks the facade once and answers with
    a fixed change request. *)
Definition one_call_change_request {St} (call : St -> prompt -> outcome * St)
    (change_request : string) : json -> string -> M St string :=
  fun _ message_history =>
    _ <~ llm_call call (CreatePrompt message_history) ;; ret change_request.


(** [depth] parallel gateways nested one inside the other around a task;
    every element of it is valid. *)
Fixpoint nested_gateways (depth : nat) : list json :=
  match depth with
  | 0 => [task "A" "a"]
  | S depth' => [parallel_gateway "G" [nested_gateways depth']]
  end.


(** * Properties *)

Section EffectLemmas.

Context {St : Type}.

Lemma costs_ret {A} (a : A) ok err : costs (St:=St) (ret a) ok err.
Proof. intros w. cbn. lia. Qed.

Lemma costs_raise {A} e ok err : costs (St:=St) (A:=A) (raise e) ok err.
Proof. intros w. cbn. lia. Qed.

Lemma costs_lift {A} (r : result A) ok err : costs (St:=St) (lift r) ok err.
Proof. intros w. unfold lift. destruct r; lia. Qed.

Lemma costs_llm_call (call : St -> prompt -> outcome * St) p ok err :
  1 <= ok -> 1 <= err -> costs (llm_call call p) ok err.
Proof.
  intros Hok Herr w. unfold llm_call.
  destruct (call (oracle w) p) as [[response|e] s']; cbn; lia.
Qed.

Lemma costs_bind {A B} (m : M St A) (k : A -> M St B) a b c d ok err :
  costs m a b -> (forall x, costs (k x) c d) ->
  a + c <= ok -> b <= err -> a + d <= err ->
  costs (bind m k) ok err.
Proof.
  intros Hm Hk H1 H2 H3 w. unfold bind.
  specialize (Hm w). destruct (m w) as [[x|e] w1].
  - specialize (Hk x w1). destruct (k x w1) as [[y|e] w2]; lia.
  - lia.
Qed.

Lemma costs_try_except {A} caught (body : M St A) a b ok err :
  costs body a b -> a <= ok -> b <= ok -> b <= err ->
  costs (try_except caught body) ok err.
Proof.
  intros Hb H1 H2 H3 w. unfold try_except.
  specialize (Hb w). destruct (body w) as [[x|e] w1]; [lia|].
  destruct (caught e); lia.
Qed.

End EffectLemmas.

Section EditorLemmas.

Import BpmnEditorService.
Context {St : Type}.
Variable call : St -> prompt -> outcome * St.
Variable lib : edit_library.
Variable self_process : json.
Variable change_request : string.

(** One iteration of the apply-retry loop. *)
Lemma attempt_process_update_loop_S n attempts process edit_proposal w :
  attempt_process_update_loop call lib change_request (S n) attempts
    process edit_proposal w =
  match _update_process lib process edit_proposal with
  | Ok updated_process => (Ok updated_process, add_apply w)
  | Raise e =>
      if is_ProcessException e then
        match call (oracle w) (ApplyErrorPrompt e change_request) with
        | (Returned proposal', s') =>
            match Py.contains "stop" proposal' with
            | Ok true => (Ok process, add_call s' (add_apply w))
            | Ok false =>
                attempt_process_update_loop call lib change_request n
                  (attempts + 1) process proposal' (add_call s' (add_apply w))
            | Raise e' => (Raise e', add_call s' (add_apply w))
            end
        | (Failed e', s') => (Raise e', add_call s' (add_apply w))
        end
      else (Raise e, add_apply w)
  end.
Proof.
  cbn [attempt_process_update_loop].
  unfold bind, try_except, count_apply, lift, llm_call, ret.
  destruct (_update_process lib process edit_proposal) as [t|e]; [reflexivity|].
  destruct (is_ProcessException e); [|reflexivity].
  cbn [oracle add_apply].
  destruct (call (oracle w) (ApplyErrorPrompt e change_request)) as [[p'|e'] s'];
    [|reflexivity].
  destruct (Py.contains "stop" p') as [[|]|e']; reflexivity.
Qed.

(** One iteration of the initial-proposal loop. *)
Lemma initial_edit_proposal_loop_S n attempts response w :
  initial_edit_proposal_loop call (S n) attempts response w =
  match _validate_llm_response response true with
  | Ok _ => (Ok response, add_validation w)
  | Raise e =>
      if is_ValueError e then
        match call (oracle w) (EditingErrorPrompt e) with
        | (Returned response', s') =>
            initial_edit_proposal_loop call n (attempts + 1) response'
              (add_call s' (add_validation w))
        | (Failed e', s') => (Raise e', add_call s' (add_validation w))
        end
      else (Raise e, add_validation w)
  end.
Proof.
  cbn [initial_edit_proposal_loop].
  unfold bind, try_except, count_validation, lift, llm_call, ret.
  destruct (_validate_llm_response response true) as [b|e]; [reflexivity|].
  destruct (is_ValueError e); [|reflexivity].
  cbn [oracle add_validation].
  destruct (call (oracle w) (EditingErrorPrompt e)) as [[r'|e'] s']; reflexivity.
Qed.

End EditorLemmas.

Section CallBudget.

Import BpmnEditorService.
Context {St : Type}.
Variable call : St -> prompt -> outcome * St.
Variable lib : edit_library.
Variable self_process : json.
Variable change_request : string.

Lemma costs_attempt_process_update_loop n attempts process edit_proposal :
  costs (attempt_process_update_loop call lib change_request n attempts
           process edit_proposal) n n.
Proof.
  revert attempts edit_proposal.
  induction n as [|n IH]; intros attempts edit_proposal;
    cbn [attempt_process_update_loop].
  - apply costs_raise.
  - eapply (costs_bind _ _ 0 0 (S n) (S n)); try lia.
    + eapply (costs_try_except _ _ 0 0); try lia.
      eapply (costs_bind _ _ 0 0 0 0); try lia.
      * intros w. cbn. lia.
      * intros _. apply costs_lift.
    + intros [t|e]; [apply costs_ret|].
      eapply (costs_bind _ _ 1 1 n n); try lia.
      * apply costs_llm_call; lia.
      * intros proposal'.
        eapply (costs_bind _ _ 0 0 n n); try lia; [apply costs_lift|].
        intros [|]; [apply costs_ret | apply IH].
Qed.

(** The initial-proposal loop calls the facade only after a failed
    validation, so it returns within [n - 1] calls and gives up after [n]. *)
Lemma calls_initial_edit_proposal_loop n attempts response w :
  match initial_edit_proposal_loop call n attempts response w with
  | (Ok _, w') => S (calls w') <= calls w + n
  | (Raise _, w') => calls w' <= calls w + n
  end.
Proof.
  revert attempts response w.
  induction n as [|n IH]; intros attempts response w.
  - cbn. lia.
  - rewrite initial_edit_proposal_loop_S.
    destruct (_validate_llm_response response true) as [b|e]; [cbn; lia|].
    destruct (is_ValueError e); [|cbn; lia].
    destruct (call (oracle w) (EditingErrorPrompt e)) as [[r'|e'] s'];
      [|cbn; lia].
    specialize (IH (attempts + 1) r' (add_call s' (add_validation w))).
    destruct (initial_edit_proposal_loop call n (attempts + 1) r' _)
      as [[r|e1] w1]; cbn in IH; lia.
Qed.

Lemma costs_get_initial_edit_proposal :
  costs (_get_initial_edit_proposal call self_process change_request 3) 3 4.
Proof.
  unfold _get_initial_edit_proposal.
  eapply (costs_bind _ _ 1 1 2 3); try lia; [apply costs_llm_call; lia|].
  intros response w.
  pose proof (calls_initial_edit_proposal_loop 3 0 response w) as H.
  destruct (initial_edit_proposal_loop call 3 0 response w) as [[r|e] w']; lia.
Qed.

Lemma costs_intermediate_edit_proposal_loop n attempts updated_process error_message :
  costs (intermediate_edit_proposal_loop call n attempts updated_process
           error_message) n n.
Proof.
  revert attempts error_message.
  induction n as [|n IH]; intros attempts error_message;
    cbn [intermediate_edit_proposal_loop].
  - apply costs_raise.
  - eapply (costs_bind _ _ 1 1 n n); try lia.
    + eapply (costs_try_except _ _ 1 1); try lia.
      eapply (costs_bind _ _ 0 0 1 1); try lia.
      * destruct (Nat.eqb (attempts + 1) 1); [apply costs_ret|].
        destruct error_message; [apply costs_ret | apply costs_raise].
      * intros p.
        eapply (costs_bind _ _ 1 1 0 0); try lia; [apply costs_llm_call; lia|].
        intros response.
        eapply (costs_bind _ _ 0 0 0 0); try lia; [intros w; cbn; lia|].
        intros _.
        eapply (costs_bind _ _ 0 0 0 0); try lia; [apply costs_lift|].
        intros _. apply costs_ret.
    + intros [response|e]; [apply costs_ret | apply IH].
Qed.

Lemma costs_apply_initial_edit :
  costs (_apply_initial_edit call lib self_process change_request) 6 6.
Proof.
  unfold _apply_initial_edit.
  eapply (costs_bind _ _ 3 4 3 3); try lia.
  - apply costs_get_initial_edit_proposal.
  - intros response. apply costs_attempt_process_update_loop.
Qed.

Lemma costs_apply_intermediate_edits updated_process k :
  costs (_apply_intermediate_edits call lib change_request updated_process k)
    (6 * k) (6 * k).
Proof.
  revert updated_process.
  induction k as [|k IH]; intros updated_process;
    cbn [_apply_intermediate_edits].
  - apply costs_raise.
  - eapply (costs_bind _ _ 0 0 (6 * S k) (6 * S k)); try lia;
      [intros w; cbn; lia|].
    intros _.
    eapply (costs_bind _ _ 3 3 (3 + 6 * k) (3 + 6 * k)); try lia.
    + apply costs_intermediate_edit_proposal_loop.
    + intros response.
      eapply (costs_bind _ _ 0 0 (3 + 6 * k) (3 + 6 * k)); try lia;
        [apply costs_lift|].
      intros [|]; [apply costs_ret|].
      eapply (costs_bind _ _ 3 3 (6 * k) (6 * k)); try lia.
      * apply costs_attempt_process_update_loop.
      * intros p. apply IH.
Qed.

(** C1: [edit_bpmn] is a total function of the facade and the tree: on
    every facade, from every state, it ends with a tree or with an
    exception, after at most 48 = (3 + 3) * (1 + 7) facade calls (three
    proposal attempts and three apply attempts for the initial edit and
    for each of the seven rounds). *)
Theorem edit_bpmn_terminates_within_48_calls (w : world St) :
  exists r w',
    edit_bpmn call lib self_process change_request w = (r, w') /\
    ((exists tree, r = Ok tree) \/ (exists e, r = Raise e)) /\
    calls w' <= calls w + 48.
Proof.
  assert (Hc : costs (edit_bpmn call lib self_process change_request) 48 48).
  { unfold edit_bpmn.
    eapply (costs_bind _ _ 6 6 42 42); try lia.
    - apply costs_apply_initial_edit.
    - intros p. apply (costs_apply_intermediate_edits p 7). }
  specialize (Hc w).
  destruct (edit_bpmn call lib self_process change_request w) as [[t|e] w'].
  - exists (Ok t), w'. split; [reflexivity|]. split; [left; eauto | lia].
  - exists (Raise e), w'. split; [reflexivity|]. split; [right; eauto | lia].
Qed.

End CallBudget.

(** The bound is reached: a run with 48 facade calls. *)
Example edit_bpmn_call_budget_is_reached :
  BpmnEditorService.edit_bpmn scripted_facade rejecting_library
    (JList [task "A" "a"]) "remove Z" (world0 exhausting_script)
  = (Raise (Exception (Text
       "Max number of iterations reached. Process not fully edited.")),
     World [] 48 24 24 7).
Proof. reflexivity. Qed.

Section RetryCaps.

Import BpmnEditorService.
Context {St : Type}.
Variable call : St -> prompt -> outcome * St.
Variable lib : edit_library.
Variable self_process : json.
Variable change_request : string.

Lemma attempt_loop_always_refused n attempts process edit_proposal w :
  always_returns call (structurally_invalid lib) ->
  structurally_invalid lib edit_proposal ->
  exists w',
    attempt_process_update_loop call lib change_request n attempts
      process edit_proposal w
    = (Raise (Exception (Text
         "Max number of retries reached. Process not fully edited.")), w') /\
    applies w' = applies w + n /\ calls w' = calls w + n /\
    validations w' = validations w /\ rounds w' = rounds w.
Proof.
  intros Hall. revert attempts edit_proposal w.
  induction n as [|n IH]; intros attempts edit_proposal w Hbad.
  - exists w. cbn. repeat split; lia.
  - rewrite attempt_process_update_loop_S.
    destruct Hbad as (_ & _ & Hrefuse).
    destruct (Hrefuse process) as [m ->]. cbn [is_ProcessException].
    destruct (Hall (oracle w) (ApplyErrorPrompt (ProcessException m) change_request))
      as (p' & s' & -> & Hbad').
    pose proof Hbad' as (_ & -> & _).
    destruct (IH (attempts + 1) p' (add_call s' (add_apply w)) Hbad')
      as (w' & -> & Ha & Hc & Hv & Hr).
    exists w'. cbn in *. repeat split; lia.
Qed.

Lemma initial_loop_always_invalid n attempts response w :
  always_returns call refused_with_ValueError ->
  refused_with_ValueError response ->
  exists w',
    initial_edit_proposal_loop call n attempts response w
    = (Raise (Exception (Text "Max number of retries reached.")), w') /\
    validations w' = validations w + n /\ calls w' = calls w + n /\
    applies w' = applies w /\ rounds w' = rounds w.
Proof.
  intros Hall. revert attempts response w.
  induction n as [|n IH]; intros attempts response w Hbad.
  - exists w. cbn. repeat split; lia.
  - rewrite initial_edit_proposal_loop_S.
    destruct Hbad as [m ->]. cbn [is_ValueError].
    destruct (Hall (oracle w) (EditingErrorPrompt (ValueError m)))
      as (r' & s' & -> & Hbad').
    destruct (IH (attempts + 1) r' (add_call s' (add_validation w)) Hbad')
      as (w' & -> & Hv & Hc & Ha & Hr).
    exists w'. cbn in *. repeat split; lia.
Qed.

(** The two retry caps where they do apply: a facade whose every
    proposal is structurally invalid makes [edit_bpmn] give up after
    exactly three apply attempts, all on the initial round; a facade whose
    every proposal the validator refuses with its [ValueError] makes it
    give up after exactly three runs of the proposal validator. *)
Theorem edit_bpmn_fails_after_three_attempts (w : world St) :
  (always_returns call (structurally_invalid lib) ->
   exists w',
     edit_bpmn call lib self_process change_request w
     = (Raise (Exception (Text
          "Max number of retries reached. Process not fully edited.")), w') /\
     applies w' = applies w + 3 /\ rounds w' = rounds w /\
     validations w' = validations w + 1 /\ calls w' = calls w + 4)
  /\
  (always_returns call refused_with_ValueError ->
   exists w',
     edit_bpmn call lib self_process change_request w
     = (Raise (Exception (Text "Max number of retries reached.")), w') /\
     validations w' = validations w + 3 /\ applies w' = applies w /\
     rounds w' = rounds w /\ calls w' = calls w + 4).
Proof.
  split; intros Hall.
  - unfold edit_bpmn, _apply_initial_edit, _get_initial_edit_proposal,
      _attempt_process_update_with_retries.
    unfold bind at 1 2 3. unfold llm_call.
    destruct (Hall (oracle w) (EditPrompt self_process change_request))
      as (r & s' & -> & Hbad).
    rewrite initial_edit_proposal_loop_S.
    pose proof Hbad as (-> & _ & _).
    destruct (attempt_loop_always_refused 3 0 self_process r
                (add_validation (add_call s' w)) Hall Hbad)
      as (w' & -> & Ha & Hc & Hv & Hr).
    exists w'. cbn in *. repeat split; lia.
  - unfold edit_bpmn, _apply_initial_edit, _get_initial_edit_proposal.
    unfold bind at 1 2 3. unfold llm_call.
    destruct (Hall (oracle w) (EditPrompt self_process change_request))
      as (r & s' & -> & Hbad).
    destruct (initial_loop_always_invalid 3 0 r (add_call s' w) Hall Hbad)
      as (w' & -> & Hv & Hc & Ha & Hr).
    exists w'. cbn in *. repeat split; lia.
Qed.

End RetryCaps.

Lemma edit_bpmn_fails_after_three_attempts_witness :
  (exists w',
     BpmnEditorService.edit_bpmn (constant_facade (delete_proposal "Z"))
       rejecting_library (JList []) "remove Z" (world0 tt)
     = (Raise (Exception (Text
          "Max number of retries reached. Process not fully edited.")), w') /\
     applies w' = 0 + 3 /\ rounds w' = 0 /\
     validations w' = 0 + 1 /\ calls w' = 0 + 4)
  /\
  (exists w',
     BpmnEditorService.edit_bpmn (constant_facade (JDict []))
       rejecting_library (JList []) "remove Z" (world0 tt)
     = (Raise (Exception (Text "Max number of retries reached.")), w') /\
     validations w' = 0 + 3 /\ applies w' = 0 /\
     rounds w' = 0 /\ calls w' = 0 + 4).
Proof.
  split.
  - apply (proj1 (edit_bpmn_fails_after_three_attempts
                    (constant_facade (delete_proposal "Z")) rejecting_library
                    (JList []) "remove Z" (world0 tt))).
    intros s p. exists (delete_proposal "Z"), s. split; [reflexivity|].
    split; [reflexivity|]. split; [reflexivity|].
    intros process. exists (Text "Element not found"). reflexivity.
  - apply (proj2 (edit_bpmn_fails_after_three_attempts
                    (constant_facade (JDict [])) rejecting_library
                    (JList []) "remove Z" (world0 tt))).
    intros s p. exists (JDict []), s. split; [reflexivity|].
    eexists. reflexivity.
Defined.

(** C2: what the code does with grammatically invalid proposals that the
    validator does not refuse with its [ValueError].  A stop marker, or a
    proposal whose arguments are [null], makes the validator raise a
    [KeyError] or a [TypeError]; a proposal whose arguments are a list of
    the right key passes it.  [_get_initial_edit_proposal] catches
    [ValueError] only, so with a facade that always returns such a
    proposal [edit_bpmn] ends after one run of the validator, not three,
    and with the interpreter's exception instead of the terminal failure
    of the proposal layer. *)
Theorem invalid_proposal_ends_edit_after_one_validation :
  grammatically_invalid stop_proposal /\
  grammatically_invalid null_arguments_proposal /\
  grammatically_invalid list_arguments_proposal /\
  (forall St (call : St -> prompt -> outcome * St) lib process change_request
          w response s' x,
     call (oracle w) (EditPrompt process change_request)
       = (Returned response, s') ->
     BpmnEditorService._validate_llm_response response true = Raise x ->
     is_ValueError x = false ->
     BpmnEditorService.edit_bpmn call lib process change_request w
     = (Raise x, add_validation (add_call s' w))) /\
  (forall lib process change_request,
     BpmnEditorService.edit_bpmn (constant_facade stop_proposal) lib process
       change_request (world0 tt)
     = (Raise (KeyError (JStr "function")), World tt 1 1 0 0)) /\
  (forall lib process change_request,
     BpmnEditorService.edit_bpmn (constant_facade null_arguments_proposal) lib
       process change_request (world0 tt)
     = (Raise TypeError, World tt 1 1 0 0)) /\
  (BpmnEditorService._validate_llm_response list_arguments_proposal true = Ok true /\
   forall lib process change_request,
     BpmnEditorService.edit_bpmn (constant_facade list_arguments_proposal) lib
       process change_request (world0 tt)
     = (Raise TypeError, World tt 1 1 1 0)).
Proof.
  split; [|split; [|split; [|split; [|split; [|split; [|split]]]]]].
  - intros (f & fields & Hf & _). discriminate.
  - intros (f & fields & _ & Ha & _). discriminate.
  - intros (f & fields & _ & Ha & _). discriminate.
  - intros St call lib process change_request w response s' x Hc Hv Hx.
    unfold BpmnEditorService.edit_bpmn, BpmnEditorService._apply_initial_edit,
      BpmnEditorService._get_initial_edit_proposal.
    unfold bind at 1 2 3. unfold llm_call. rewrite Hc.
    rewrite initial_edit_proposal_loop_S, Hv, Hx. reflexivity.
  - reflexivity.
  - reflexivity.
  - reflexivity.
  - intros lib process change_request. destruct lib. reflexivity.
Qed.

Lemma invalid_proposal_ends_edit_after_one_validation_witness :
  BpmnEditorService.edit_bpmn scripted_facade rejecting_library (JList [])
    "remove A"
    (world0 [Returned null_arguments_proposal; Returned (delete_proposal "A")])
  = (Raise TypeError, World [Returned (delete_proposal "A")] 1 1 0 0).
Proof.
  apply (proj1 (proj2 (proj2 (proj2
           invalid_proposal_ends_edit_after_one_validation)))
           _ scripted_facade rejecting_library (JList []) "remove A"
           (world0 [Returned null_arguments_proposal;
                    Returned (delete_proposal "A")])
           null_arguments_proposal [Returned (delete_proposal "A")] TypeError);
    reflexivity.
Defined.

Section CounterLemmas.

Context {St : Type}.
Variable f : world St -> nat.

Lemma preserves_ret {A} (a : A) : preserves f (ret a).
Proof. intros w. reflexivity. Qed.

Lemma preserves_raise {A} e : preserves (A:=A) f (raise e).
Proof. intros w. reflexivity. Qed.

Lemma preserves_lift {A} (r : result A) : preserves f (lift r).
Proof. intros w. reflexivity. Qed.

Lemma preserves_bind {A B} (m : M St A) (k : A -> M St B) :
  preserves f m -> (forall x, preserves f (k x)) -> preserves f (bind m k).
Proof.
  intros Hm Hk w. unfold bind. specialize (Hm w).
  destruct (m w) as [[x|e] w1]; cbn in *; [|assumption].
  rewrite Hk. assumption.
Qed.

Lemma preserves_try_except {A} caught (body : M St A) :
  preserves f body -> preserves f (try_except caught body).
Proof.
  intros Hb w. unfold try_except. specialize (Hb w).
  destruct (body w) as [[x|e] w1]; cbn in *; [assumption|].
  destruct (caught e); assumption.
Qed.

Lemma preserves_llm_call (call : St -> prompt -> outcome * St) p :
  (forall s' w, f (add_call s' w) = f w) -> preserves f (llm_call call p).
Proof.
  intros Hf w. unfold llm_call.
  destruct (call (oracle w) p) as [[r|e] s']; cbn; apply Hf.
Qed.

End CounterLemmas.

Section Rounds.

Import BpmnEditorService.
Context {St : Type}.
Variable call : St -> prompt -> outcome * St.
Variable lib : edit_library.
Variable self_process : json.
Variable change_request : string.

(** The proposal layer of a round runs the validator and the facade
    only: it applies nothing and starts no round. *)
Lemma intermediate_proposal_preserves (f : world St -> nat) n attempts p err :
  (forall s' w, f (add_call s' w) = f w) ->
  (forall w, f (add_validation w) = f w) ->
  preserves f (intermediate_edit_proposal_loop call n attempts p err).
Proof.
  intros Hcall Hval. revert attempts err.
  induction n as [|n IH]; intros attempts err;
    cbn [intermediate_edit_proposal_loop].
  - apply preserves_raise.
  - apply preserves_bind.
    + apply preserves_try_except. apply preserves_bind.
      * destruct (Nat.eqb (attempts + 1) 1); [apply preserves_ret|].
        destruct err; [apply preserves_ret | apply preserves_raise].
      * intros q. apply preserves_bind; [apply preserves_llm_call, Hcall|].
        intros r. apply preserves_bind; [intros w; apply Hval|].
        intros _. apply preserves_bind; [apply preserves_lift|].
        intros _. apply preserves_ret.
    + intros [r|e]; [apply preserves_ret | apply IH].
Qed.

Lemma attempt_loop_preserves_rounds n attempts p proposal :
  preserves rounds
    (attempt_process_update_loop call lib change_request n attempts p proposal).
Proof.
  revert attempts proposal.
  induction n as [|n IH]; intros attempts proposal;
    cbn [attempt_process_update_loop].
  - apply preserves_raise.
  - apply preserves_bind.
    + apply preserves_try_except. apply preserves_bind;
        [intros w; reflexivity|]. intros _. apply preserves_lift.
    + intros [t|e]; [apply preserves_ret|].
      apply preserves_bind; [apply preserves_llm_call; reflexivity|].
      intros q. apply preserves_bind; [apply preserves_lift|].
      intros [|]; [apply preserves_ret | apply IH].
Qed.

(** One iteration of the loop over the intermediate rounds. *)
Lemma apply_intermediate_edits_S updated_process n w :
  _apply_intermediate_edits call lib change_request updated_process (S n) w =
  match _get_intermediate_edit_proposal call updated_process 3 (add_round w) with
  | (Ok response, w1) =>
      match Py.contains "stop" response with
      | Ok true => (Ok updated_process, w1)
      | Ok false =>
          match _attempt_process_update_with_retries call lib change_request
                  updated_process response 3 w1 with
          | (Ok updated_process', w2) =>
              _apply_intermediate_edits call lib change_request
                updated_process' n w2
          | (Raise e, w2) => (Raise e, w2)
          end
      | Raise e => (Raise e, w1)
      end
  | (Raise e, w1) => (Raise e, w1)
  end.
Proof.
  cbn [_apply_intermediate_edits].
  unfold bind at 1 2. unfold count_round.
  destruct (_get_intermediate_edit_proposal call updated_process 3 (add_round w))
    as [[response|e] w1]; [|reflexivity].
  unfold bind at 1. unfold lift.
  destruct (Py.contains "stop" response) as [[|]|e]; try reflexivity.
Qed.

Lemma apply_intermediate_edits_rounds updated_process n w :
  rounds (snd (_apply_intermediate_edits call lib change_request
                 updated_process n w)) <= rounds w + n.
Proof.
  revert updated_process w.
  induction n as [|n IH]; intros p w; [cbn; lia|].
  rewrite apply_intermediate_edits_S.
  pose proof (intermediate_proposal_preserves rounds 3 0 p None
                ltac:(reflexivity) ltac:(reflexivity) (add_round w)) as Hp.
  unfold _get_intermediate_edit_proposal.
  destruct (intermediate_edit_proposal_loop call 3 0 p None (add_round w))
    as [[response|e] w1]; cbn in Hp; [|cbn; lia].
  destruct (Py.contains "stop" response) as [[|]|e]; [cbn; lia| |cbn; lia].
  pose proof (attempt_loop_preserves_rounds 3 0 p response w1) as Ha.
  unfold _attempt_process_update_with_retries.
  destruct (attempt_process_update_loop call lib change_request 3 0 p response w1)
    as [[p'|e] w2]; cbn in Ha; [|cbn; lia].
  specialize (IH p' w2). lia.
Qed.

(** Completed rounds are consumed one by one from the iteration budget. *)
Lemma completes_rounds_skip k p w p' w' n :
  completes_rounds call lib change_request k p w p' w' ->
  _apply_intermediate_edits call lib change_request p (k + n) w =
  _apply_intermediate_edits call lib change_request p' n w'.
Proof.
  induction 1 as [p w | k p w response w1 p' w2 p'' w3 Hget Hstop Happly _ IH];
    [reflexivity|].
  cbn [Nat.add]. rewrite apply_intermediate_edits_S, Hget, Hstop, Happly.
  exact IH.
Qed.

(** C3: once the initial edit has succeeded, [edit_bpmn] is the loop
    over at most seven intermediate rounds; a stop proposal in any round
    ends it with the tree current at that round; seven completed rounds
    without a stop proposal end in the terminal error. *)
Theorem edit_bpmn_intermediate_rounds (w0 w : world St) (p : json) :
  _apply_initial_edit call lib self_process change_request w0 = (Ok p, w) ->
  edit_bpmn call lib self_process change_request w0
    = _apply_intermediate_edits call lib change_request p 7 w /\
  rounds (snd (edit_bpmn call lib self_process change_request w0))
    <= rounds w + 7 /\
  (forall k p' w' response w'',
     k < 7 ->
     completes_rounds call lib change_request k p w p' w' ->
     _get_intermediate_edit_proposal call p' 3 (add_round w') = (Ok response, w'') ->
     Py.contains "stop" response = Ok true ->
     edit_bpmn call lib self_process change_request w0 = (Ok p', w'')) /\
  (forall p' w',
     completes_rounds call lib change_request 7 p w p' w' ->
     edit_bpmn call lib self_process change_request w0
     = (Raise (Exception (Text
          "Max number of iterations reached. Process not fully edited.")), w')).
Proof.
  intros Hinit.
  assert (Hedit : edit_bpmn call lib self_process change_request w0
                  = _apply_intermediate_edits call lib change_request p 7 w).
  { unfold edit_bpmn, bind. rewrite Hinit. reflexivity. }
  split; [exact Hedit|]. rewrite Hedit.
  split; [apply apply_intermediate_edits_rounds|]. split.
  - intros k p' w' response w'' Hk Hrounds Hget Hstop.
    replace 7 with (k + S (6 - k)) by lia.
    rewrite (completes_rounds_skip _ _ _ _ _ _ Hrounds).
    rewrite apply_intermediate_edits_S, Hget, Hstop. reflexivity.
  - intros p' w' Hrounds.
    pose proof (completes_rounds_skip _ _ _ _ _ 0 Hrounds) as Hskip.
    cbn [Nat.add] in Hskip. rewrite Hskip. reflexivity.
Qed.

End Rounds.

Lemma edit_bpmn_intermediate_rounds_witness :
  BpmnEditorService.edit_bpmn (constant_facade (delete_proposal "A"))
    emptying_library (JList [task "A" "a"]) "remove A" (world0 tt)
  = (Raise (Exception (Text
       "Max number of iterations reached. Process not fully edited.")),
     World tt 8 8 8 7)
  /\
  BpmnEditorService.edit_bpmn scripted_facade
    emptying_library (JList [task "A" "a"]) "remove A"
    (world0 [Returned (delete_proposal "A"); Returned (delete_proposal "B");
             Returned stop_proposal])
  = (Ok (JList []), World [] 3 3 2 2).
Proof.
  split.
  - eapply (proj2 (proj2 (proj2 (edit_bpmn_intermediate_rounds
              (constant_facade (delete_proposal "A")) emptying_library
              (JList [task "A" "a"]) "remove A" (world0 tt)
              (World tt 1 1 1 0) (JList []) eq_refl)))).
    repeat (eapply rounds_next; [reflexivity | reflexivity | reflexivity | ]).
    apply rounds_none.
  - eapply (proj1 (proj2 (proj2 (edit_bpmn_intermediate_rounds
              scripted_facade emptying_library
              (JList [task "A" "a"]) "remove A"
              (world0 [Returned (delete_proposal "A");
                       Returned (delete_proposal "B"); Returned stop_proposal])
              (World [Returned (delete_proposal "B"); Returned stop_proposal]
                 1 1 1 0)
              (JList []) eq_refl))) 1).
    + lia.
    + eapply rounds_next; [reflexivity | reflexivity | reflexivity | ].
      apply rounds_none.
    + reflexivity.
    + reflexivity.
Defined.

Section StopSignals.

Import BpmnEditorService.
Context {St : Type}.
Variable call : St -> prompt -> outcome * St.
Variable lib : edit_library.
Variable self_process : json.
Variable change_request : string.

(** With [is_first_edit=False] the validator accepts whatever contains
    the key "stop", without looking at any other key. *)
Lemma validate_llm_response_stop response :
  Py.contains "stop" response = Ok true ->
  _validate_llm_response response false = Ok true.
Proof. intros H. unfold _validate_llm_response. cbn [negb]. rewrite H. reflexivity. Qed.

(** C10: in any intermediate round, a response that the proposal layer
    hands over and that contains the key "stop" ends the editing at once:
    the result is the round's tree, and no edit is applied on the way,
    whatever else the response carries (such a response is valid without
    any look at its other keys). *)
Theorem stop_key_wins_in_intermediate_round
    (n : nat) (updated_process response : json) (w w1 : world St) :
  _get_intermediate_edit_proposal call updated_process 3 (add_round w)
    = (Ok response, w1) ->
  Py.contains "stop" response = Ok true ->
  _validate_llm_response response false = Ok true /\
  _apply_intermediate_edits call lib change_request updated_process (S n) w
    = (Ok updated_process, w1) /\
  applies w1 = applies w.
Proof.
  intros Hget Hstop. split; [apply validate_llm_response_stop, Hstop|]. split.
  - rewrite apply_intermediate_edits_S, Hget, Hstop. reflexivity.
  - pose proof (intermediate_proposal_preserves call applies 3 0 updated_process
                  None ltac:(reflexivity) ltac:(reflexivity) (add_round w)) as Hp.
    unfold _get_intermediate_edit_proposal in Hget. rewrite Hget in Hp.
    exact Hp.
Qed.

(** A [ProcessException] followed by a stop proposal, at any iteration of
    the apply-retry loop. *)
Lemma attempt_loop_stop_after_failure n attempts process proposal w e stop s' :
  _update_process lib process proposal = Raise e ->
  is_ProcessException e = true ->
  call (oracle w) (ApplyErrorPrompt e change_request) = (Returned stop, s') ->
  Py.contains "stop" stop = Ok true ->
  attempt_process_update_loop call lib change_request (S n) attempts
    process proposal w
  = (Ok process, add_call s' (add_apply w)).
Proof.
  intros Hupd He Hcall Hstop.
  rewrite attempt_process_update_loop_S, Hupd, He, Hcall, Hstop. reflexivity.
Qed.

(** The apply-retry loop returns either the very tree it was given or
    the tree the library built from it for some proposal. *)
Lemma attempt_loop_returns n attempts process proposal w t w' :
  attempt_process_update_loop call lib change_request n attempts
    process proposal w = (Ok t, w') ->
  t = process \/ exists proposal', _update_process lib process proposal' = Ok t.
Proof.
  revert attempts proposal w.
  induction n as [|n IH]; intros attempts proposal w H; [discriminate|].
  rewrite attempt_process_update_loop_S in H.
  destruct (_update_process lib process proposal) as [t0|e] eqn:Hupd.
  - injection H as <- _. right. eauto.
  - destruct (is_ProcessException e); [|discriminate].
    destruct (call (oracle w) (ApplyErrorPrompt e change_request))
      as [[p'|e'] s']; [|discriminate].
    destruct (Py.contains "stop" p') as [[|]|e']; [| |discriminate].
    + injection H as <- _. left. reflexivity.
    + eapply IH, H.
Qed.

(** C4: when, at any iteration of the apply-retry loop, the proposal is
    refused with a [ProcessException] and the re-prompt brings a stop
    proposal, the loop returns the tree it was started with; and whatever
    tree the loop returns is that tree or one the library returned for
    it, never a state in between.  The initial round starts the loop with
    the pre-edit tree. *)
Theorem stop_mid_retry_returns_given_tree :
  (forall n attempts process proposal w e stop s',
     _update_process lib process proposal = Raise e ->
     is_ProcessException e = true ->
     call (oracle w) (ApplyErrorPrompt e change_request) = (Returned stop, s') ->
     Py.contains "stop" stop = Ok true ->
     attempt_process_update_loop call lib change_request (S n) attempts
       process proposal w
     = (Ok process, add_call s' (add_apply w))) /\
  (forall process proposal w t w',
     _attempt_process_update_with_retries call lib change_request
       process proposal 3 w = (Ok t, w') ->
     t = process \/ exists proposal', _update_process lib process proposal' = Ok t) /\
  (forall w t w',
     _apply_initial_edit call lib self_process change_request w = (Ok t, w') ->
     t = self_process \/
     exists proposal', _update_process lib self_process proposal' = Ok t).
Proof.
  split; [|split].
  - intros. eapply attempt_loop_stop_after_failure; eassumption.
  - intros process proposal w t w' H. eapply attempt_loop_returns, H.
  - intros w t w' H. unfold _apply_initial_edit, bind in H.
    destruct (_get_initial_edit_proposal call self_process change_request 3 w)
      as [[response|e] w1]; [|discriminate].
    eapply attempt_loop_returns, H.
Qed.

End StopSignals.

Lemma stop_key_wins_in_intermediate_round_witness :
  BpmnEditorService._validate_llm_response (delete_and_stop "A") false = Ok true /\
  BpmnEditorService._apply_intermediate_edits
    (constant_facade (delete_and_stop "A")) emptying_library "remove A"
    (JList [task "A" "a"]) 7 (world0 tt)
  = (Ok (JList [task "A" "a"]), World tt 1 1 0 1) /\
  applies (World tt 1 1 0 1) = applies (world0 tt).
Proof.
  apply (stop_key_wins_in_intermediate_round
           (constant_facade (delete_and_stop "A")) emptying_library "remove A"
           6 (JList [task "A" "a"]) (delete_and_stop "A")
           (world0 tt) (World tt 1 1 0 1)); reflexivity.
Defined.

Lemma stop_mid_retry_returns_given_tree_witness :
  BpmnEditorService._attempt_process_update_with_retries scripted_facade
    rejecting_library "remove Z" (JList [task "A" "a"]) (delete_proposal "Z") 3
    (world0 [Returned stop_proposal])
  = (Ok (JList [task "A" "a"]), World [] 1 0 1 0).
Proof.
  apply (proj1 (stop_mid_retry_returns_given_tree scripted_facade
                  rejecting_library (JList []) "remove Z")
           2 0 (JList [task "A" "a"]) (delete_proposal "Z")
           (world0 [Returned stop_proposal])
           (ProcessException (Text "Element not found")) stop_proposal []);
    reflexivity.
Defined.

(** C5: what the code does with an object whose only key is "stop".  As a
    first proposal it is refused, but by the [KeyError] of
    [response["function"]], which [_get_initial_edit_proposal] does not
    catch: the error leaves [edit_bpmn] after one facade call and one
    validation, without any re-prompt.  In later rounds the same object is
    accepted. *)
Theorem stop_as_first_proposal_raises_KeyError (v : json) :
  BpmnEditorService._validate_llm_response (JDict [("stop", v)]) true
    = Raise (KeyError (JStr "function")) /\
  is_ValueError (KeyError (JStr "function")) = false /\
  (forall process change_request,
     BpmnEditorService._get_initial_edit_proposal
       (constant_facade (JDict [("stop", v)])) process change_request 3 (world0 tt)
     = (Raise (KeyError (JStr "function")), World tt 1 1 0 0)) /\
  (forall lib process change_request,
     BpmnEditorService.edit_bpmn
       (constant_facade (JDict [("stop", v)])) lib process change_request (world0 tt)
     = (Raise (KeyError (JStr "function")), World tt 1 1 0 0)) /\
  BpmnEditorService._validate_llm_response (JDict [("stop", v)]) false = Ok true.
Proof. repeat split. Qed.

(** The retry the first-proposal loop does perform, on the validator's own
    [ValueError]: an empty object is re-prompted for. *)
Lemma empty_first_proposal_is_reprompted process change_request :
  BpmnEditorService._get_initial_edit_proposal scripted_facade
    process change_request 3
    (world0 [Returned (JDict []); Returned (delete_proposal "A")])
  = (Ok (delete_proposal "A"), World [] 2 2 0 0) /\
  BpmnEditorService._validate_llm_response (JDict []) true
  = Raise (ValueError (Text
      "Function call should contain 'function' and 'arguments' keys, or a 'stop' key.")).
Proof. split; reflexivity. Qed.

(** C9: what the code does when a facade call raises.  In [create_bpmn] the
    call stands before the [try], in [_get_initial_edit_proposal] and in
    [_attempt_process_update_with_retries] it stands outside of it or in
    the handler: the exception leaves the orchestrator at once, with
    attempts to spare.  A call that returns [None] to the editor ends the
    same way, by the [TypeError] of the first [in] test. *)
Theorem facade_exception_escapes_the_retry_loops (e : exn) :
  (forall supported_elements message_history,
     BpmnModelingService.create_bpmn supported_elements (failing_facade e)
       message_history 3 (world0 tt)
     = (Raise e, World tt 1 0 0 0)) /\
  (forall lib process change_request,
     BpmnEditorService.edit_bpmn (failing_facade e) lib process change_request
       (world0 tt)
     = (Raise e, World tt 1 0 0 0)) /\
  (forall process change_request,
     BpmnEditorService.edit_bpmn scripted_facade rejecting_library process
       change_request (world0 [Returned (delete_proposal "Z"); Failed e])
     = (Raise e, World [] 2 1 1 0)) /\
  (forall lib process change_request,
     BpmnEditorService.edit_bpmn (constant_facade JNull) lib process
       change_request (world0 tt)
     = (Raise TypeError, World tt 1 1 0 0)).
Proof. repeat split. Qed.

(** The sibling paths that do fold a failed call into the retry cycle:
    [_get_intermediate_edit_proposal] calls the facade inside its [try], so
    a [ValueError] raised by the call costs one attempt; [create_bpmn]
    treats a call that returned [None] as a failed attempt and re-prompts. *)
Lemma failed_call_folded_on_sibling_paths :
  (forall m process,
     BpmnEditorService._get_intermediate_edit_proposal scripted_facade process 3
       (world0 [Failed (ValueError m); Returned stop_proposal])
     = (Ok stop_proposal, World [] 2 1 0 0)) /\
  (forall message_history,
     BpmnModelingService.create_bpmn
       ["task"; "userTask"; "serviceTask"; "exclusiveGateway"; "parallelGateway"]
       scripted_facade message_history 3
       (world0 [Returned JNull;
                Returned (JDict [("process", JList [task "A" "a"])])])
     = (Ok (JList [task "A" "a"]), World [] 2 0 0 0)).
Proof. split; intros; reflexivity. Qed.

Section DictLemmas.

Lemma has_key_lookup key fields :
  Py.has_key key fields = match Py.lookup_key key fields with
                          | Some _ => true
                          | None => false
                          end.
Proof.
  induction fields as [|[k v] fields IH]; [reflexivity|].
  cbn. destruct (String.eqb k key); [reflexivity | exact IH].
Qed.

Lemma has_key_key_set key fields :
  Py.has_key key fields = true <-> key ∈ key_set fields.
Proof.
  unfold key_set. induction fields as [|[k v] fields IH]; cbn.
  - split; [discriminate | set_solver].
  - rewrite elem_of_union, elem_of_singleton, <- IH.
    destruct (String.eqb_spec k key) as [->|Hne]; cbn; [tauto|].
    split; [tauto | intros [E|E]; [congruence | exact E]].
Qed.

Lemma has_key_false_key_set key fields :
  Py.has_key key fields = false <-> key ∉ key_set fields.
Proof.
  rewrite <- has_key_key_set. destruct (Py.has_key key fields); split; congruence.
Qed.

Lemma length_key_set fields :
  NoDup fields.*1 -> length fields = size (key_set fields).
Proof.
  intros Hnd. unfold key_set. rewrite size_list_to_set by exact Hnd.
  symmetry. apply length_fmap.
Qed.

(** A set that contains [X] and is no larger than [X] is [X]. *)
Lemma key_set_exact (X Y : gset string) :
  X ⊆ Y -> size Y <= size X -> Y = X.
Proof.
  intros Hsub Hsize. symmetry. apply set_subseteq_size_eq; assumption.
Qed.

End DictLemmas.

Section ProposalGrammar.

Import BpmnEditorService.

Lemma size_pair (a b : string) : a <> b -> size ({[a; b]} : gset string) = 2.
Proof.
  intros Hne. rewrite size_union by set_solver. rewrite !size_singleton. reflexivity.
Qed.

Lemma exactly_one_key (K : gset string) a :
  a ∈ K -> size K <= 1 -> K = {[a]}.
Proof.
  intros Ha Hsize. apply key_set_exact; [set_solver|].
  rewrite size_singleton. exact Hsize.
Qed.

Lemma exactly_two_keys (K : gset string) a b :
  a <> b -> a ∈ K -> b ∈ K -> size K <= 2 -> K = {[a; b]}.
Proof.
  intros Hne Ha Hb Hsize. apply key_set_exact; [set_solver|].
  rewrite size_pair by exact Hne. exact Hsize.
Qed.

Lemma elem_of_one {A} (x a : A) : x ∈ [a] <-> x = a.
Proof.
  split; [|intros ->; left].
  intros H. inversion H as [|? ? ? H']; subst; [reflexivity | inversion H'].
Qed.

Lemma elem_of_two {A} (x a b : A) : x ∈ [a; b] <-> x = a \/ x = b.
Proof.
  split.
  - intros H. inversion H as [|? ? ? H']; subst; [left; reflexivity|].
    right. apply elem_of_one, H'.
  - intros [-> | ->]; [left | right; left].
Qed.

Section KeySets.

Variable fields : list (string * json).
Hypothesis Hkeys : NoDup fields.*1.

Lemma has_key_K key : Py.has_key key fields = true <-> key ∈ key_set fields.
Proof. apply has_key_key_set. Qed.

Lemma lacks_key_K key : Py.has_key key fields = false <-> key ∉ key_set fields.
Proof. apply has_key_false_key_set. Qed.

Lemma more_keys_K n :
  Nat.ltb n (length fields) = true <-> n < size (key_set fields).
Proof. rewrite Nat.ltb_lt, length_key_set by exact Hkeys. reflexivity. Qed.

Lemma no_more_keys_K n :
  Nat.ltb n (length fields) = false <-> size (key_set fields) <= n.
Proof. rewrite Nat.ltb_ge, length_key_set by exact Hkeys. reflexivity. Qed.

(** A verb with one admissible key set [{a}]. *)
Lemma one_key_verdict verb a (no_key too_many : msg) :
  required_key_sets verb = [ {[a]} ] ->
  match
    (missing <- (b <- Ok (Py.has_key a fields) ;; Ok (negb b)) ;;
     if missing : bool then Raise (ValueError no_key)
     else if Nat.ltb 1 (length fields) then Raise (ValueError too_many)
     else Ok true)
  with
  | Ok true => matches_grammar (JStr verb) fields
  | Raise (ValueError _) => ~ matches_grammar (JStr verb) fields
  | _ => False
  end.
Proof.
  intros Hreq. unfold matches_grammar.
  destruct (Py.has_key a fields) eqn:E1; cbn [negb rbind].
  - destruct (Nat.ltb 1 (length fields)) eqn:E2.
    + apply more_keys_K in E2. intros (v & [= <-] & Hin).
      rewrite Hreq in Hin. apply elem_of_one in Hin.
      rewrite Hin, size_singleton in E2. lia.
    + apply has_key_K in E1. apply no_more_keys_K in E2.
      exists verb. split; [reflexivity|]. rewrite Hreq.
      apply elem_of_one, exactly_one_key; assumption.
  - apply lacks_key_K in E1. intros (v & [= <-] & Hin).
    rewrite Hreq in Hin. apply elem_of_one in Hin. set_solver.
Qed.

(** A verb with one admissible key set [{a, b}]. *)
Lemma two_keys_verdict verb a b (no_keys too_many : msg) :
  a <> b ->
  required_key_sets verb = [ {[a; b]} ] ->
  match
    (no_a <- (x <- Ok (Py.has_key a fields) ;; Ok (negb x)) ;;
     missing <- (if no_a : bool then Ok true
                 else x <- Ok (Py.has_key b fields) ;; Ok (negb x)) ;;
     if missing : bool then Raise (ValueError no_keys)
     else if Nat.ltb 2 (length fields) then Raise (ValueError too_many)
     else Ok true)
  with
  | Ok true => matches_grammar (JStr verb) fields
  | Raise (ValueError _) => ~ matches_grammar (JStr verb) fields
  | _ => False
  end.
Proof.
  intros Hab Hreq. unfold matches_grammar.
  destruct (Py.has_key a fields) eqn:E1; cbn [negb rbind].
  - destruct (Py.has_key b fields) eqn:E2; cbn [negb rbind].
    + destruct (Nat.ltb 2 (length fields)) eqn:E3.
      * apply more_keys_K in E3. intros (v & [= <-] & Hin).
        rewrite Hreq in Hin. apply elem_of_one in Hin.
        rewrite Hin, size_pair in E3 by assumption. lia.
      * apply has_key_K in E1, E2. apply no_more_keys_K in E3.
        exists verb. split; [reflexivity|]. rewrite Hreq.
        apply elem_of_one, exactly_two_keys; assumption.
    + apply lacks_key_K in E2. intros (v & [= <-] & Hin).
      rewrite Hreq in Hin. apply elem_of_one in Hin. set_solver.
  - apply lacks_key_K in E1. intros (v & [= <-] & Hin).
    rewrite Hreq in Hin. apply elem_of_one in Hin. set_solver.
Qed.

(** A verb with the admissible key sets [{a, before_id}] and
    [{a, after_id}]. *)
Lemma placement_verdict verb a (no_key both_given none_given too_many : msg) :
  a <> "before_id" -> a <> "after_id" ->
  required_key_sets verb = [ {[a; "before_id"]}; {[a; "after_id"]} ] ->
  match
    (missing <- (b <- Ok (Py.has_key a fields) ;; Ok (negb b)) ;;
     if missing : bool then Raise (ValueError no_key) else
     before <- Ok (Py.has_key "before_id" fields) ;;
     both <- (if before : bool then Ok (Py.has_key "after_id" fields)
              else Ok false) ;;
     if both : bool then Raise (ValueError both_given) else
     no_before <- (b <- Ok (Py.has_key "before_id" fields) ;; Ok (negb b)) ;;
     neither <- (if no_before : bool
                 then b <- Ok (Py.has_key "after_id" fields) ;; Ok (negb b)
                 else Ok false) ;;
     if neither : bool then Raise (ValueError none_given) else
     if Nat.ltb 2 (length fields) then Raise (ValueError too_many)
     else Ok true)
  with
  | Ok true => matches_grammar (JStr verb) fields
  | Raise (ValueError _) => ~ matches_grammar (JStr verb) fields
  | _ => False
  end.
Proof.
  intros Hb Ha Hreq. unfold matches_grammar.
  assert (Hba : "before_id" <> "after_id") by discriminate.
  destruct (Py.has_key a fields) eqn:E1; cbn [negb rbind].
  - destruct (Py.has_key "before_id" fields) eqn:E2;
      destruct (Py.has_key "after_id" fields) eqn:E3; cbn [negb rbind].
    + apply has_key_K in E2, E3. intros (v & [= <-] & Hin).
      rewrite Hreq in Hin. apply elem_of_two in Hin.
      destruct Hin as [Hin|Hin]; rewrite Hin in *; set_solver.
    + destruct (Nat.ltb 2 (length fields)) eqn:E4.
      * apply more_keys_K in E4. intros (v & [= <-] & Hin).
        rewrite Hreq in Hin. apply elem_of_two in Hin.
        destruct Hin as [Hin|Hin];
          rewrite Hin, size_pair in E4 by assumption; lia.
      * apply has_key_K in E1, E2. apply no_more_keys_K in E4.
        exists verb. split; [reflexivity|]. rewrite Hreq.
        apply elem_of_two. left. apply exactly_two_keys; assumption.
    + destruct (Nat.ltb 2 (length fields)) eqn:E4.
      * apply more_keys_K in E4. intros (v & [= <-] & Hin).
        rewrite Hreq in Hin. apply elem_of_two in Hin.
        destruct Hin as [Hin|Hin];
          rewrite Hin, size_pair in E4 by assumption; lia.
      * apply has_key_K in E1, E3. apply no_more_keys_K in E4.
        exists verb. split; [reflexivity|]. rewrite Hreq.
        apply elem_of_two. right. apply exactly_two_keys; assumption.
    + apply lacks_key_K in E2, E3. intros (v & [= <-] & Hin).
      rewrite Hreq in Hin. apply elem_of_two in Hin.
      destruct Hin as [Hin|Hin]; rewrite Hin in *; set_solver.
  - apply lacks_key_K in E1. intros (v & [= <-] & Hin).
    rewrite Hreq in Hin. apply elem_of_two in Hin.
    destruct Hin as [Hin|Hin]; rewrite Hin in *; set_solver.
Qed.

End KeySets.

Variable response : json.
Variable is_first_edit : bool.
Variable function_to_call : json.
Variable fields : list (string * json).
Hypothesis Hfunction : Py.getitem response "function" = Ok function_to_call.
Hypothesis Harguments : Py.getitem response "arguments" = Ok (JDict fields).
Hypothesis Hstop : is_first_edit = true \/ Py.contains "stop" response = Ok false.
Hypothesis Hkeys : NoDup fields.*1.

(** With both keys present, and no stop marker where one would be
    accepted, the validator goes straight to the per-verb checks. *)
Lemma validate_llm_response_prefix :
  exists rf, response = JDict rf /\
    Py.has_key "function" rf = true /\ Py.has_key "arguments" rf = true /\
    (if negb is_first_edit then Py.contains "stop" response else Ok false)
    = Ok false.
Proof.
  destruct response as [| | | | |rf]; try discriminate.
  exists rf. split; [reflexivity|]. cbn in Hfunction, Harguments.
  rewrite !has_key_lookup.
  destruct (Py.lookup_key "function" rf); [|discriminate].
  destruct (Py.lookup_key "arguments" rf); [|discriminate].
  repeat split. destruct Hstop as [E|E]; rewrite E; [reflexivity|].
  destruct (negb is_first_edit); reflexivity.
Qed.

(** The verdict of the validator, verb by verb, against the grammar. *)
Lemma validate_llm_response_verdict :
  match _validate_llm_response response is_first_edit with
  | Ok true => matches_grammar function_to_call fields
  | Raise (ValueError _) => ~ matches_grammar function_to_call fields
  | _ => False
  end.
Proof.
  destruct validate_llm_response_prefix as (rf & Hrf & Hf & Ha & Hs).
  pose proof Hfunction as Hfun. pose proof Harguments as Hargs.
  unfold _validate_llm_response.
  rewrite Hs. cbn [rbind].
  rewrite Hrf in Hfun, Hargs |- *.
  unfold Py.not_in. cbn [Py.contains rbind]. rewrite Hf, Ha.
  rewrite Hfun, Hargs. cbn [negb rbind Py.len Py.contains].
  destruct function_to_call as [| | |verb| |];
    try (cbn; intros (v & Hv & _); discriminate).
  unfold Py.eq_str.
  destruct (String.eqb_spec verb "delete_element") as [->|N1];
    [apply one_key_verdict; [exact Hkeys | reflexivity]|].
  destruct (String.eqb_spec verb "redirect_branch") as [->|N2];
    [apply two_keys_verdict; [exact Hkeys | discriminate | reflexivity]|].
  destruct (String.eqb_spec verb "add_element") as [->|N3];
    [apply placement_verdict; [exact Hkeys | discriminate | discriminate | reflexivity]|].
  destruct (String.eqb_spec verb "move_element") as [->|N4];
    [apply placement_verdict; [exact Hkeys | discriminate | discriminate | reflexivity]|].
  destruct (String.eqb_spec verb "update_element") as [->|N5];
    [apply one_key_verdict; [exact Hkeys | reflexivity]|].
  intros (v & [= <-] & Hin). unfold required_key_sets in Hin.
  apply String.eqb_neq in N1, N2, N3, N4, N5.
  rewrite N1, N2, N3, N4, N5 in Hin. inversion Hin.
Qed.

(** C6: for a proposal made of a function and an arguments mapping
    (validated as a first proposal, or carrying no stop marker), the
    validator accepts exactly when the keys of the mapping are one of the
    key sets the verb requires; otherwise, and for an unknown verb, it
    raises its [ValueError]. *)
Theorem validate_llm_response_exact_key_sets :
  (matches_grammar function_to_call fields ->
   _validate_llm_response response is_first_edit = Ok true) /\
  (~ matches_grammar function_to_call fields ->
   exists m, _validate_llm_response response is_first_edit = Raise (ValueError m)).
Proof.
  pose proof validate_llm_response_verdict as H.
  destruct (_validate_llm_response response is_first_edit) as [[|]|e].
  - split; [reflexivity | intros Hn; contradiction].
  - contradiction.
  - destruct e; try contradiction.
    split; [intros Hm; contradiction | intros _; eauto].
Qed.

End ProposalGrammar.

Lemma validate_llm_response_exact_key_sets_witness :
  (matches_grammar (JStr "add_element")
     [("element", task "N" "new"); ("after_id", JStr "A")] ->
   BpmnEditorService._validate_llm_response
     (JDict [("function", JStr "add_element");
             ("arguments", JDict [("element", task "N" "new"); ("after_id", JStr "A")])])
     true = Ok true) /\
  (~ matches_grammar (JStr "add_element")
       [("element", task "N" "new"); ("after_id", JStr "A")] ->
   exists m,
     BpmnEditorService._validate_llm_response
       (JDict [("function", JStr "add_element");
               ("arguments", JDict [("element", task "N" "new"); ("after_id", JStr "A")])])
       true = Raise (ValueError m)).
Proof.
  apply (validate_llm_response_exact_key_sets
           (JDict [("function", JStr "add_element");
                   ("arguments",
                    JDict [("element", task "N" "new"); ("after_id", JStr "A")])])
           true (JStr "add_element")
           [("element", task "N" "new"); ("after_id", JStr "A")]).
  - reflexivity.
  - reflexivity.
  - left. reflexivity.
  - cbn. apply NoDup_cons. split.
    + intros H. apply elem_of_one in H. discriminate.
    + apply NoDup_singleton.
Defined.

(** The examples of the specification. *)
Example delete_element_proposal_valid :
  BpmnEditorService._validate_llm_response (delete_proposal "A") true = Ok true.
Proof. reflexivity. Qed.

Example delete_element_extra_key_invalid :
  BpmnEditorService._validate_llm_response
    (JDict [("function", JStr "delete_element");
            ("arguments", JDict [("element_id", JStr "A"); ("foo", JNum 1)])]) true
  = Raise (ValueError (Text "Arguments should contain only 'element_id' key.")).
Proof. reflexivity. Qed.

Example add_element_before_and_after_invalid :
  BpmnEditorService._validate_llm_response
    (JDict [("function", JStr "add_element");
            ("arguments", JDict [("element", task "N" "new");
                                 ("before_id", JStr "A"); ("after_id", JStr "B")])])
    true
  = Raise (ValueError (Text
      "Only one of 'before_id' and 'after_id' should be provided.")).
Proof. reflexivity. Qed.

Example add_element_neither_invalid :
  BpmnEditorService._validate_llm_response
    (JDict [("function", JStr "add_element");
            ("arguments", JDict [("element", task "N" "new")])]) true
  = Raise (ValueError (Text "Either 'before_id' or 'after_id' should be provided.")).
Proof. reflexivity. Qed.

Example unknown_verb_invalid :
  BpmnEditorService._validate_llm_response
    (JDict [("function", JStr "rename_element"); ("arguments", JDict [])]) false
  = Raise (ValueError (FunctionNotFound (JStr "rename_element"))).
Proof. reflexivity. Qed.

Section Loops.

Context {A : Type}.

Lemma for_each_ext (l : list A) (f g : A -> result unit) :
  (forall x, x ∈ l -> f x = g x) -> for_each l f = for_each l g.
Proof.
  induction l as [|x l IH]; intros H; [reflexivity|]. cbn.
  rewrite (H x) by left. destruct (g x); [|reflexivity].
  cbn. apply IH. intros y Hy. apply H. right. exact Hy.
Qed.

Lemma for_each_ok (l : list A) (f : A -> result unit) :
  for_each l f = Ok tt <-> forall x, x ∈ l -> f x = Ok tt.
Proof.
  induction l as [|x l IH]; cbn.
  - split; [intros _ y Hy; inversion Hy | reflexivity].
  - destruct (f x) as [[]|e] eqn:Hx; cbn.
    + rewrite IH. split.
      * intros H y Hy. inversion Hy; subst; [exact Hx | apply H; assumption].
      * intros H y Hy. apply H. right. exact Hy.
    + split; [discriminate|]. intros H.
      specialize (H x ltac:(left)). congruence.
Qed.


Lemma for_each_raise (l : list A) (f : A -> result unit) e :
  for_each l f = Raise e -> exists x, x ∈ l /\ f x = Raise e.
Proof.
  induction l as [|x l IH]; cbn; [discriminate|].
  destruct (f x) as [[]|e'] eqn:Hx; cbn.
  - intros H. destruct (IH H) as (y & Hy & Hfy). exists y. split; [right|]; assumption.
  - intros [= <-]. exists x. split; [left | exact Hx].
Qed.

(** Two bodies that agree unless the first raises [e]: so do the loops. *)
Lemma for_each_agrees (l : list A) (f g : A -> result unit) e :
  (forall x, x ∈ l -> f x = Raise e \/ f x = g x) ->
  for_each l f = Raise e \/ for_each l f = for_each l g.
Proof.
  induction l as [|x l IH]; intros H; [right; reflexivity|]. cbn.
  destruct (H x ltac:(left)) as [-> | ->]; [left; reflexivity|].
  destruct (g x) as [[]|e']; cbn; [|right; reflexivity].
  apply IH. intros y Hy. apply H. right. exact Hy.
Qed.

End Loops.

Section Depth.

Lemma list_max_ge (l : list nat) n : n ∈ l -> n <= list_max l.
Proof.
  unfold list_max. induction 1 as [n l | n m l _ IH]; cbn [fold_right]; lia.
Qed.

Lemma depth_item x items : x ∈ items -> json_depth x < json_depth (JList items).
Proof.
  intros H. cbn. apply Nat.lt_succ_r, list_max_ge.
  apply list_elem_of_fmap. exists x. split; [reflexivity | exact H].
Qed.

Lemma depth_lookup key fields v :
  Py.lookup_key key fields = Some v -> json_depth v < json_depth (JDict fields).
Proof.
  intros H. cbn. apply Nat.lt_succ_r.
  induction fields as [|[k v'] fields IH]; [discriminate|].
  cbn in *. destruct (String.eqb k key).
  - injection H as ->. apply Nat.le_max_l.
  - specialize (IH H). unfold list_max in IH.
    etransitivity; [exact IH | apply Nat.le_max_r].
Qed.

Lemma depth_getitem x key v :
  Py.getitem x key = Ok v -> json_depth v < json_depth x.
Proof.
  destruct x as [| | | | |fields]; try discriminate. cbn [Py.getitem].
  destruct (Py.lookup_key key fields) eqn:H; [|discriminate].
  intros [= <-]. eapply depth_lookup, H.
Qed.

Lemma depth_iter x elements e :
  Py.iter x = Ok elements -> e ∈ elements -> json_depth e <= json_depth x.
Proof.
  destruct x as [| | |s|items|fields]; try discriminate; intros [= <-] He.
  - unfold Py.chars in He. apply list_elem_of_fmap in He as (c & -> & _).
    cbn. lia.
  - apply depth_item in He. lia.
  - apply list_elem_of_fmap in He as (kv & -> & _). cbn. lia.
Qed.

End Depth.

Section ValidatorLemmas.

Import BpmnModelingService.
Variable supported_elements : list string.

Local Abbreviation validate_element := (_validate_element supported_elements).
Local Abbreviation validate_body := (validate_bpmn_body supported_elements).
Local Abbreviation validate_fuel := (validate_bpmn_fuel supported_elements).
Local Abbreviation validate_bpmn := (_validate_bpmn supported_elements).

(** The body only ever recurs on values nested strictly inside the
    element. *)
Lemma validate_bpmn_body_ext (r1 r2 : json -> result unit) element :
  (forall q, json_depth q < json_depth element -> r1 q = r2 q) ->
  validate_body r1 element = validate_body r2 element.
Proof.
  intros Hr. unfold validate_bpmn_body.
  destruct (validate_element element) as [[]|e]; [cbn [rbind]|reflexivity].
  destruct (Py.getitem element "type") as [ty|e]; [cbn [rbind]|reflexivity].
  assert (Hx : (if Py.eq_str ty "exclusiveGateway" then
                  branches <- Py.getitem element "branches" ;;
                  bs <- Py.iter branches ;;
                  for_each bs (fun branch =>
                    path <- Py.getitem branch "path" ;; r1 path)
                else Ok tt)
               = (if Py.eq_str ty "exclusiveGateway" then
                    branches <- Py.getitem element "branches" ;;
                    bs <- Py.iter branches ;;
                    for_each bs (fun branch =>
                      path <- Py.getitem branch "path" ;; r2 path)
                  else Ok tt)).
  { destruct (Py.eq_str ty "exclusiveGateway"); [|reflexivity].
    destruct (Py.getitem element "branches") as [branches|e] eqn:Hb;
      [cbn [rbind]|reflexivity].
    destruct (Py.iter branches) as [bs|e] eqn:Hbs; [cbn [rbind]|reflexivity].
    apply for_each_ext. intros branch Hin.
    destruct (Py.getitem branch "path") as [path|e] eqn:Hp;
      [cbn [rbind]|reflexivity].
    apply Hr.
    apply depth_getitem in Hb, Hp.
    pose proof (depth_iter _ _ _ Hbs Hin). lia. }
  rewrite Hx. clear Hx.
  match goal with |- rbind ?m _ = _ => destruct m as [[]|e] end;
    [cbn [rbind]|reflexivity].
  destruct (Py.eq_str ty "parallelGateway"); [|reflexivity].
  destruct (Py.getitem element "branches") as [branches|e] eqn:Hb;
    [cbn [rbind]|reflexivity].
  destruct (Py.iter branches) as [bs|e] eqn:Hbs; [cbn [rbind]|reflexivity].
  apply for_each_ext. intros branch Hin. apply Hr.
  apply depth_getitem in Hb.
  pose proof (depth_iter _ _ _ Hbs Hin). lia.
Qed.

(** Any fuel above the nesting depth gives the same verdict. *)
Lemma validate_bpmn_fuel_stable n m process :
  json_depth process < n -> json_depth process < m ->
  validate_fuel n process = validate_fuel m process.
Proof.
  revert m process. induction n as [|n IH]; intros m process Hn Hm; [lia|].
  destruct m as [|m]; [lia|]. cbn [validate_bpmn_fuel].
  destruct (Py.iter process) as [elements|e] eqn:Hit; [cbn [rbind]|reflexivity].
  apply for_each_ext. intros element Hin.
  apply validate_bpmn_body_ext. intros q Hq.
  pose proof (depth_iter _ _ _ Hit Hin).
  apply IH; lia.
Qed.

Lemma validate_bpmn_unfold process :
  validate_bpmn process =
  (elements <- Py.iter process ;; for_each elements (validate_body validate_bpmn)).
Proof.
  unfold _validate_bpmn at 1. cbn [validate_bpmn_fuel].
  destruct (Py.iter process) as [elements|e] eqn:Hit; [cbn [rbind]|reflexivity].
  apply for_each_ext. intros element Hin.
  apply validate_bpmn_body_ext. intros q Hq.
  pose proof (depth_iter _ _ _ Hit Hin).
  unfold _validate_bpmn. apply validate_bpmn_fuel_stable; lia.
Qed.

End ValidatorLemmas.

Section ElementRules.

Import BpmnModelingService.
Variable supported_elements : list string.

Local Abbreviation validate_element := (_validate_element supported_elements).

Lemma getitem_contains x key v :
  Py.getitem x key = Ok v -> Py.contains key x = Ok true.
Proof.
  destruct x as [| | | | |fields]; try discriminate. cbn.
  rewrite has_key_lookup. destruct (Py.lookup_key key fields); [reflexivity|discriminate].
Qed.

Lemma contains_getitem fields key :
  Py.has_key key fields = true -> exists v, Py.getitem (JDict fields) key = Ok v.
Proof.
  cbn. rewrite has_key_lookup.
  destruct (Py.lookup_key key fields) as [v|]; [eauto|discriminate].
Qed.





Lemma task_like_not_gateway ty s :
  Py.eq_str ty s = true ->
  s = "exclusiveGateway" \/ s = "parallelGateway" ->
  Py.in_strings ty ["task"; "userTask"; "serviceTask"] = false.
Proof.
  destruct ty; try discriminate. cbn [Py.eq_str].
  intros H%String.eqb_eq [-> | ->]; subst; reflexivity.
Qed.





End ElementRules.

Section ElementVerdicts.

Import BpmnModelingService.
Variable supported_elements : list string.

Local Abbreviation validate_element := (_validate_element supported_elements).

Lemma is_list_inv b : Py.is_list b = true -> exists items, b = JList items.
Proof. destruct b; try discriminate. eauto. Qed.

(** The check run on each branch of an exclusive gateway. *)
Lemma branch_check_ok branch :
  (no_condition <- Py.not_in "condition" branch ;;
   bad <- (if no_condition : bool then Ok true else Py.not_in "path" branch) ;;
   if bad : bool then Raise (Exception (ExclusiveInvalidBranch branch))
   else Ok tt) = Ok tt ->
  Py.contains "condition" branch = Ok true /\ Py.contains "path" branch = Ok true.
Proof.
  unfold Py.not_in.
  destruct (Py.contains "condition" branch) as [[|]|]; cbn [rbind negb];
    try discriminate.
  destruct (Py.contains "path" branch) as [[|]|]; cbn [rbind negb];
    try discriminate.
  split; reflexivity.
Qed.

Lemma branch_check_raise branch x :
  (no_condition <- Py.not_in "condition" branch ;;
   bad <- (if no_condition : bool then Ok true else Py.not_in "path" branch) ;;
   if bad : bool then Raise (Exception (ExclusiveInvalidBranch branch))
   else Ok tt) = Raise x ->
  x = Exception (ExclusiveInvalidBranch branch) \/ x = TypeError.
Proof.
  unfold Py.not_in.
  destruct branch; cbn [Py.contains rbind negb];
    try (intros [= <-]; right; reflexivity);
    match goal with
    | |- context [if negb ?b then _ else _] => destruct b; cbn [rbind negb]
    end;
    try (intros [= <-]; left; reflexivity);
    match goal with
    | |- context [if negb ?b then _ else _] => destruct b; cbn [rbind negb]
    end;
    try (intros [= <-]; left; reflexivity); discriminate.
Qed.

(** What an accepted element is known to carry. *)
Lemma validate_element_ok e :
  validate_element e = Ok tt ->
  exists ty,
    Py.contains "id" e = Ok true /\
    Py.getitem e "type" = Ok ty /\
    Py.in_strings ty supported_elements = true /\
    (Py.in_strings ty ["task"; "userTask"; "serviceTask"] = true ->
     Py.contains "label" e = Ok true) /\
    (Py.eq_str ty "exclusiveGateway" = true ->
     Py.contains "label" e = Ok true /\
     exists bs, Py.getitem e "branches" = Ok (JList bs) /\
       forall branch, branch ∈ bs ->
         Py.contains "condition" branch = Ok true /\
         Py.contains "path" branch = Ok true) /\
    (Py.eq_str ty "parallelGateway" = true ->
     exists bs, Py.getitem e "branches" = Ok (JList bs)).
Proof.
  unfold _validate_element, Py.not_in.
  destruct (Py.contains "id" e) as [[|]|] eqn:Hid; cbn [rbind negb];
    try discriminate.
  destruct (Py.contains "type" e) as [[|]|] eqn:Hty; cbn [rbind negb];
    try discriminate.
  destruct (Py.getitem e "type") as [ty|] eqn:Hg; cbn [rbind]; [|discriminate].
  destruct (Py.in_strings ty supported_elements) eqn:Hs; cbn [negb];
    [|discriminate].
  destruct (Py.in_strings ty ["task"; "userTask"; "serviceTask"]) eqn:Ht.
  { destruct (Py.contains "label" e) as [[|]|] eqn:Hl; cbn [rbind negb];
      try discriminate.
    intros _. exists ty.
    split; [reflexivity|]. split; [reflexivity|]. split; [assumption|].
    split; [intros _; reflexivity|]. split.
    - intros Hx.
      rewrite (task_like_not_gateway _ _ Hx ltac:(left; reflexivity)) in Ht.
      discriminate.
    - intros Hx.
      rewrite (task_like_not_gateway _ _ Hx ltac:(right; reflexivity)) in Ht.
      discriminate. }
  destruct (Py.eq_str ty "exclusiveGateway") eqn:Hx.
  { destruct (Py.contains "label" e) as [[|]|] eqn:Hl; cbn [rbind negb];
      try discriminate.
    destruct (Py.contains "branches" e) as [[|]|] eqn:Hb; cbn [rbind negb];
      try discriminate.
    destruct (Py.getitem e "branches") as [b|] eqn:Hgb; cbn [rbind];
      [|discriminate].
    destruct (Py.is_list b) eqn:Hlist; cbn [negb]; [|discriminate].
    apply is_list_inv in Hlist as [bs ->]. cbn [Py.iter rbind].
    intros Hall. exists ty.
    split; [reflexivity|]. split; [reflexivity|]. split; [assumption|].
    split; [intros; congruence|]. split.
    - intros _. split; [reflexivity|].
      exists bs. split; [reflexivity|]. intros branch Hin.
      apply branch_check_ok. revert branch Hin. apply for_each_ok. exact Hall.
    - intros Hp. destruct ty; try discriminate. cbn in Hx, Hp.
      apply String.eqb_eq in Hx as ->. discriminate. }
  destruct (Py.eq_str ty "parallelGateway") eqn:Hp.
  { destruct (Py.contains "branches" e) as [[|]|] eqn:Hb; cbn [rbind negb];
      try discriminate.
    destruct (Py.getitem e "branches") as [b|] eqn:Hgb; cbn [rbind];
      [|discriminate].
    destruct (Py.is_list b) eqn:Hlist; cbn [negb]; [|discriminate].
    apply is_list_inv in Hlist as [bs ->].
    intros _. exists ty.
    split; [reflexivity|]. split; [reflexivity|]. split; [assumption|].
    split; [intros; congruence|]. split; [intros; congruence|].
    intros _. exists bs. reflexivity. }
  intros _. exists ty.
  split; [reflexivity|]. split; [reflexivity|]. split; [assumption|].
  split; [intros; congruence|]. split; intros; congruence.
Qed.

Lemma contains_raise key e x :
  Py.contains key e = Raise x -> x = TypeError /\ forall fields, e <> JDict fields.
Proof. destruct e; cbn; intros [= <-]; split; congruence. Qed.

Lemma getitem_raise_after_contains key e x :
  Py.contains key e = Ok true -> Py.getitem e key = Raise x ->
  x = TypeError /\ forall fields, e <> JDict fields.
Proof.
  destruct e as [| | | | |fields]; cbn; try discriminate;
    try (intros _ [= <-]; split; congruence).
  rewrite has_key_lookup. destruct (Py.lookup_key key fields); discriminate.
Qed.

(** What an error of [_validate_element] carries. *)
Lemma validate_element_raise e x :
  validate_element e = Raise x -> element_error supported_elements e x.
Proof.
  unfold _validate_element, Py.not_in, element_error.
  destruct (Py.contains "id" e) as [[|]|] eqn:Hid; cbn [rbind negb].
  2: { intros [= <-]. left. reflexivity. }
  2: { intros [= <-]. right. right. right. eapply contains_raise, Hid. }
  destruct (Py.contains "type" e) as [[|]|] eqn:Hty; cbn [rbind negb].
  2: { intros [= <-]. left. reflexivity. }
  2: { intros [= <-]. right. right. right. eapply contains_raise, Hty. }
  destruct (Py.getitem e "type") as [ty|] eqn:Hg; cbn [rbind].
  2: { intros [= <-]. right. right. right.
       eapply getitem_raise_after_contains; eassumption. }
  destruct (Py.in_strings ty supported_elements) eqn:Hs; cbn [negb].
  2: { intros [= <-]. right. left. eauto. }
  destruct (Py.in_strings ty ["task"; "userTask"; "serviceTask"]) eqn:Ht.
  { destruct (Py.contains "label" e) as [[|]|] eqn:Hl; cbn [rbind negb].
    - discriminate.
    - intros [= <-]. left. reflexivity.
    - intros [= <-]. right. right. right. eapply contains_raise, Hl. }
  destruct (Py.eq_str ty "exclusiveGateway") eqn:Hx.
  { destruct (Py.contains "label" e) as [[|]|] eqn:Hl; cbn [rbind negb].
    2: { intros [= <-]. left. reflexivity. }
    2: { intros [= <-]. right. right. right. eapply contains_raise, Hl. }
    destruct (Py.contains "branches" e) as [[|]|] eqn:Hb; cbn [rbind negb].
    2: { intros [= <-]. left. reflexivity. }
    2: { intros [= <-]. right. right. right. eapply contains_raise, Hb. }
    destruct (Py.getitem e "branches") as [b|] eqn:Hgb; cbn [rbind].
    2: { intros [= <-]. right. right. right.
         eapply getitem_raise_after_contains; eassumption. }
    destruct (Py.is_list b) eqn:Hlist; cbn [negb].
    2: { intros [= <-]. left. reflexivity. }
    apply is_list_inv in Hlist as [bs ->]. cbn [Py.iter rbind].
    intros Hraise. apply for_each_raise in Hraise as (branch & Hin & Hbranch).
    right. right. left. exists (JList bs), bs, branch.
    repeat split; try assumption. apply branch_check_raise, Hbranch. }
  destruct (Py.eq_str ty "parallelGateway") eqn:Hp; [|discriminate].
  destruct (Py.contains "branches" e) as [[|]|] eqn:Hb; cbn [rbind negb].
  2: { intros [= <-]. left. reflexivity. }
  2: { intros [= <-]. right. right. right. eapply contains_raise, Hb. }
  destruct (Py.getitem e "branches") as [b|] eqn:Hgb; cbn [rbind].
  2: { intros [= <-]. right. right. right.
       eapply getitem_raise_after_contains; eassumption. }
  destruct (Py.is_list b) eqn:Hlist; cbn [negb]; [discriminate|].
  intros [= <-]. left. reflexivity.
Qed.

End ElementVerdicts.

Section TreeVerdicts.

Import BpmnModelingService.
Variable supported_elements : list string.

Local Abbreviation validate_element := (_validate_element supported_elements).
Local Abbreviation validate_body := (validate_bpmn_body supported_elements).
Local Abbreviation validate_bpmn := (_validate_bpmn supported_elements).

(** An accepting run of the loop body has accepted the element and
    every branch body the traversal reaches from it. *)
Lemma validate_bpmn_body_ok (recur : json -> result unit) element :
  validate_body recur element = Ok tt ->
  validate_element element = Ok tt /\
  (forall ty branches bs branch path,
     Py.getitem element "type" = Ok ty ->
     Py.eq_str ty "exclusiveGateway" = true ->
     Py.getitem element "branches" = Ok branches ->
     Py.iter branches = Ok bs -> branch ∈ bs ->
     Py.getitem branch "path" = Ok path ->
     recur path = Ok tt) /\
  (forall ty branches bs branch,
     Py.getitem element "type" = Ok ty ->
     Py.eq_str ty "parallelGateway" = true ->
     Py.getitem element "branches" = Ok branches ->
     Py.iter branches = Ok bs -> branch ∈ bs ->
     recur branch = Ok tt).
Proof.
  unfold validate_bpmn_body.
  destruct (validate_element element) as [[]|e]; cbn [rbind]; [|discriminate].
  destruct (Py.getitem element "type") as [ty|e]; cbn [rbind]; [|discriminate].
  intros H. split; [reflexivity|].
  match type of H with rbind ?m _ = _ => destruct m as [[]|e] eqn:Hx end;
    cbn [rbind] in H; [|discriminate].
  split.
  - intros ty' branches bs branch path [= <-] Hty Hb Hbs Hin Hp.
    rewrite Hty, Hb in Hx. cbn [rbind] in Hx. rewrite Hbs in Hx. cbn [rbind] in Hx.
    pose proof (proj1 (for_each_ok _ _) Hx branch Hin) as Hbranch.
    cbn beta in Hbranch. rewrite Hp in Hbranch. exact Hbranch.
  - intros ty' branches bs branch [= <-] Hty Hb Hbs Hin.
    rewrite Hty, Hb in H. cbn [rbind] in H. rewrite Hbs in H. cbn [rbind] in H.
    exact (proj1 (for_each_ok _ _) H branch Hin).
Qed.

(** Every element the traversal of an accepted tree meets has passed
    [_validate_element]. *)
Lemma accepted_tree_elements process e :
  occurs e process -> validate_bpmn process = Ok tt -> validate_element e = Ok tt.
Proof.
  induction 1 as
    [process elements Hit Hin
    |process elements gateway ty branches bs branch path
       Hit Hin Hty Hx Hb Hbs Hbranch Hp _ IH
    |process elements gateway ty branches bs branch
       Hit Hin Hty Hx Hb Hbs Hbranch _ IH];
    rewrite validate_bpmn_unfold, Hit; cbn [rbind]; intros Hok;
    pose proof (proj1 (for_each_ok _ _) Hok) as Hall.
  - apply (validate_bpmn_body_ok _ _ (Hall e Hin)).
  - apply IH.
    eapply (proj1 (proj2 (validate_bpmn_body_ok _ _ (Hall gateway Hin))));
      eassumption.
  - apply IH.
    eapply (proj2 (proj2 (validate_bpmn_body_ok _ _ (Hall gateway Hin))));
      eassumption.
Qed.

(** A raising run of the loop body: the element check raised, or a
    branch of a gateway is not an object, or the recursive call on a
    branch body raised. *)
Lemma validate_bpmn_body_raise (recur : json -> result unit) element x :
  validate_body recur element = Raise x ->
  validate_element element = Raise x \/
  x = TypeError \/
  (exists ty branches bs branch path,
     Py.getitem element "type" = Ok ty /\
     Py.eq_str ty "exclusiveGateway" = true /\
     Py.getitem element "branches" = Ok branches /\
     Py.iter branches = Ok bs /\ branch ∈ bs /\
     Py.getitem branch "path" = Ok path /\
     recur path = Raise x) \/
  (exists ty branches bs branch,
     Py.getitem element "type" = Ok ty /\
     Py.eq_str ty "parallelGateway" = true /\
     Py.getitem element "branches" = Ok branches /\
     Py.iter branches = Ok bs /\ branch ∈ bs /\
     recur branch = Raise x).
Proof.
  unfold validate_bpmn_body.
  destruct (validate_element element) as [[]|e] eqn:Hel; cbn [rbind].
  2: { intros [= <-]. left. reflexivity. }
  destruct (validate_element_ok _ _ Hel) as (ty & _ & Hty & _ & _ & Hx & Hp).
  rewrite Hty. cbn [rbind]. intros H. right.
  destruct (Py.eq_str ty "exclusiveGateway") eqn:Ex.
  - destruct (Hx eq_refl) as (_ & bs & Hb & Hbranches).
    rewrite Hb in H. cbn [rbind Py.iter] in H.
    destruct (for_each bs _) as [[]|e] eqn:Hloop in H; cbn [rbind] in H.
    + destruct (Py.eq_str ty "parallelGateway") eqn:Ep; [|discriminate].
      destruct ty; try discriminate. cbn in Ex, Ep.
      apply String.eqb_eq in Ex as ->. discriminate.
    + injection H as ->.
      apply for_each_raise in Hloop as (branch & Hin & Hbranch).
      destruct (Py.getitem branch "path") as [path|e] eqn:Hpath;
        cbn [rbind] in Hbranch.
      * right. left. exists ty, (JList bs), bs, branch, path.
        repeat split; assumption || reflexivity.
      * injection Hbranch as ->. left.
        eapply getitem_raise_after_contains; [|exact Hpath].
        apply (Hbranches branch Hin).
  - cbn [rbind] in H.
    destruct (Py.eq_str ty "parallelGateway") eqn:Ep; [|discriminate].
    destruct (Hp eq_refl) as (bs & Hb).
    rewrite Hb in H. cbn [rbind Py.iter] in H.
    apply for_each_raise in H as (branch & Hin & Hbranch).
    right. right. exists ty, (JList bs), bs, branch.
    repeat split; assumption || reflexivity.
Qed.

Lemma iter_raise x e : Py.iter x = Raise e -> e = TypeError.
Proof. destruct x; cbn; congruence. Qed.

(** Where an error of the validator comes from: the element check of
    some element the traversal meets, or a value of the wrong kind in the
    place of a sequence or of a branch object. *)
Lemma validate_bpmn_raise_origin n process x :
  json_depth process < n ->
  validate_bpmn process = Raise x ->
  x = TypeError \/ exists e, occurs e process /\ validate_element e = Raise x.
Proof.
  revert process. induction n as [|n IH]; intros process Hn; [lia|].
  rewrite validate_bpmn_unfold.
  destruct (Py.iter process) as [elements|e] eqn:Hit; cbn [rbind].
  2: { intros [= <-]. left. eapply iter_raise, Hit. }
  intros H. apply for_each_raise in H as (element & Hin & Hbody).
  pose proof (depth_iter _ _ _ Hit Hin) as Hd.
  apply validate_bpmn_body_raise in Hbody
    as [Hel | [-> | [(ty & branches & bs & branch & path & Hty & Hx & Hb & Hbs
                       & Hbranch & Hp & Hrec)
                    | (ty & branches & bs & branch & Hty & Hx & Hb & Hbs
                       & Hbranch & Hrec)]]].
  - right. exists element. split; [|exact Hel]. eapply occurs_here; eassumption.
  - left. reflexivity.
  - apply IH in Hrec as [-> | (e & Hocc & He)]; [left; reflexivity| |].
    + right. exists e. split; [|exact He].
      eapply occurs_exclusive; eassumption.
    + apply depth_getitem in Hb, Hp.
      pose proof (depth_iter _ _ _ Hbs Hbranch). lia.
  - apply IH in Hrec as [-> | (e & Hocc & He)]; [left; reflexivity| |].
    + right. exists e. split; [|exact He].
      eapply occurs_parallel; eassumption.
    + apply depth_getitem in Hb.
      pose proof (depth_iter _ _ _ Hbs Hbranch). lia.
Qed.

(** The fuel [_validate_bpmn] starts with never runs out. *)
Lemma validate_bpmn_no_RecursionError process :
  validate_bpmn process <> Raise RecursionError.
Proof.
  intros H.
  apply (validate_bpmn_raise_origin (S (json_depth process))) in H
    as [H | (e & _ & H)]; [discriminate | | lia].
  apply validate_element_raise in H.
  destruct H as [H | [(ty & _ & H) | [(? & ? & ? & _ & _ & _ & [H|H]) | [H _]]]];
    try discriminate.
  exact H.
Qed.

(** ** The run on a bounded stack *)

Variable overflows : nat -> json -> bool.

Local Abbreviation validate_bounded :=
  (validate_bpmn_bounded supported_elements overflows).

Lemma validate_bpmn_body_agrees (r1 r2 : json -> result unit) element :
  (forall q, r1 q = Raise RecursionError \/ r1 q = r2 q) ->
  validate_body r1 element = Raise RecursionError \/
  validate_body r1 element = validate_body r2 element.
Proof.
  intros Hr. unfold validate_bpmn_body.
  destruct (validate_element element) as [[]|e]; [cbn [rbind]|right; reflexivity].
  destruct (Py.getitem element "type") as [ty|e]; [cbn [rbind]|right; reflexivity].
  assert (Hx : forall (P : result unit -> Prop),
             P (Raise RecursionError) ->
             (P (if Py.eq_str ty "exclusiveGateway" then
                   branches <- Py.getitem element "branches" ;;
                   bs <- Py.iter branches ;;
                   for_each bs (fun branch =>
                     path <- Py.getitem branch "path" ;; r2 path)
                 else Ok tt)) ->
             P (if Py.eq_str ty "exclusiveGateway" then
                  branches <- Py.getitem element "branches" ;;
                  bs <- Py.iter branches ;;
                  for_each bs (fun branch =>
                    path <- Py.getitem branch "path" ;; r1 path)
                else Ok tt)).
  { intros P Hrec Hsame.
    destruct (Py.eq_str ty "exclusiveGateway"); [|exact Hsame].
    destruct (Py.getitem element "branches") as [branches|e];
      [cbn [rbind] in *|exact Hsame].
    destruct (Py.iter branches) as [bs|e]; [cbn [rbind] in *|exact Hsame].
    destruct (for_each_agrees bs
                (fun branch => path <- Py.getitem branch "path" ;; r1 path)
                (fun branch => path <- Py.getitem branch "path" ;; r2 path)
                RecursionError) as [-> | ->]; [|exact Hrec|exact Hsame].
    intros branch _.
    destruct (Py.getitem branch "path") as [path|e]; cbn [rbind];
      [apply Hr | right; reflexivity]. }
  apply Hx; [left; reflexivity|].
  match goal with |- context [rbind ?m _] => destruct m as [[]|e] end;
    [cbn [rbind]|right; reflexivity].
  destruct (Py.eq_str ty "parallelGateway"); [|right; reflexivity].
  destruct (Py.getitem element "branches") as [branches|e];
    [cbn [rbind]|right; reflexivity].
  destruct (Py.iter branches) as [bs|e]; [cbn [rbind]|right; reflexivity].
  apply for_each_agrees. intros branch _. apply Hr.
Qed.

(** On a bounded stack the validator raises [RecursionError] or does
    what [_validate_bpmn] does. *)
Lemma validate_bpmn_bounded_agrees frames process :
  validate_bounded frames process = Raise RecursionError \/
  validate_bounded frames process = validate_bpmn process.
Proof.
  revert process. induction frames as [|frames IH]; intros process;
    [left; reflexivity|].
  rewrite validate_bpmn_unfold. cbn [validate_bpmn_bounded].
  destruct (Py.iter process) as [elements|e]; [cbn [rbind]|right; reflexivity].
  apply for_each_agrees. intros element _.
  destruct (overflows frames element); [left; reflexivity|].
  apply validate_bpmn_body_agrees, IH.
Qed.


End TreeVerdicts.

Section ProcessValidator.

Import BpmnModelingService.
Variable supported_elements : list string.

Local Abbreviation validate_element := (_validate_element supported_elements).
Local Abbreviation validate_bpmn := (_validate_bpmn supported_elements).



Variable overflows : nat -> json -> bool.

Local Abbreviation validate_bounded :=
  (validate_bpmn_bounded supported_elements overflows).




Lemma exclusive_not_parallel ty :
  Py.eq_str ty "exclusiveGateway" = true -> Py.eq_str ty "parallelGateway" = false.
Proof.
  destruct ty; try discriminate. cbn.
  intros ->%String.eqb_eq. reflexivity.
Qed.




(** C8, as the code has it: in an accepted tree every task-like element
    carries the key "label", whatever its value; a task-like element
    without that key makes the tree invalid. *)
Theorem accepted_task_has_label_key :
  (forall process e,
     validate_bpmn process = Ok tt -> occurs e process -> task_like e ->
     Py.contains "label" e = Ok true) /\
  (forall process e,
     occurs e process -> task_like e -> Py.contains "label" e = Ok false ->
     exists y, validate_bpmn process = Raise y).
Proof.
  split.
  - intros process e Hv Hocc (ty & Hty & Htask).
    pose proof (accepted_tree_elements _ _ _ Hocc Hv) as He.
    apply validate_element_ok in He as (ty' & _ & Hty' & _ & Hlabel & _).
    rewrite Hty in Hty'. injection Hty' as <-. apply Hlabel, Htask.
  - intros process e Hocc (ty & Hty & Htask) Hlabel.
    destruct (validate_bpmn process) as [[]|y] eqn:Hv; [|eauto].
    pose proof (accepted_tree_elements _ _ _ Hocc Hv) as He.
    apply validate_element_ok in He as (ty' & _ & Hty' & _ & Hl & _).
    rewrite Hty in Hty'. injection Hty' as <-.
    rewrite (Hl Htask) in Hlabel. discriminate.
Qed.

End ProcessValidator.

(** The example of the specification: a valid top level, one invalid
    element three branches deep. *)
Example invalid_element_three_branches_deep :
  let bad := JDict [("id", JStr "X"); ("type", JStr "task")] in
  BpmnModelingService._validate_bpmn spec_element_types
    (JList [task "A" "a";
            exclusive_gateway "G1"
              [[task "B" "b"];
               [parallel_gateway "G2"
                  [[exclusive_gateway "G3" [[task "C" "c"; bad]]]]]];
            task "D" "d"])
  = Raise (Exception (TaskMissingLabel bad)).
Proof. reflexivity. Qed.

(** A tree of valid elements nested deeper than the stack has room for
    ends in [RecursionError]; with room enough it is accepted, as it is by
    [_validate_bpmn]. *)
Lemma nested_gateways_need_stack depth :
  (forall frames,
     BpmnModelingService.validate_bpmn_bounded spec_element_types
       (fun _ _ => false) frames (JList (nested_gateways depth))
     = if Nat.ltb depth frames then Ok tt else Raise RecursionError) /\
  BpmnModelingService._validate_bpmn spec_element_types
    (JList (nested_gateways depth)) = Ok tt.
Proof.
  assert (Hb : forall frames,
             BpmnModelingService.validate_bpmn_bounded spec_element_types
               (fun _ _ => false) frames (JList (nested_gateways depth))
             = if Nat.ltb depth frames then Ok tt else Raise RecursionError).
  { induction depth as [|depth IH]; intros [|frames]; try reflexivity.
    cbn [nested_gateways BpmnModelingService.validate_bpmn_bounded
         Py.iter rbind for_each].
    unfold BpmnModelingService.validate_bpmn_body.
    cbn [parallel_gateway map]. cbn -[BpmnModelingService.validate_bpmn_bounded Nat.ltb].
    rewrite IH. change (Nat.ltb (S depth) (S frames)) with (Nat.ltb depth frames).
    destruct (Nat.ltb depth frames); reflexivity. }
  split; [exact Hb|].
  destruct (validate_bpmn_bounded_agrees spec_element_types (fun _ _ => false)
              (S depth) (JList (nested_gateways depth))) as [H | H];
    rewrite Hb, (proj2 (Nat.ltb_lt depth (S depth)) (Nat.lt_succ_diag_r depth)) in H.
  - discriminate.
  - symmetry. exact H.
Qed.



(** Two elements with the same unrecognized type are told apart by
    nothing in the error. *)
Example unsupported_type_errors_coincide :
  BpmnModelingService._validate_bpmn spec_element_types
    (JList [JDict [("id", JStr "A"); ("type", JStr "bogus")]])
  = BpmnModelingService._validate_bpmn spec_element_types
      (JList [JDict [("id", JStr "B"); ("type", JStr "bogus")]]).
Proof. reflexivity. Qed.

Lemma accepted_task_has_label_key_witness :
  Py.contains "label" (task "A" "") = Ok true.
Proof.
  apply (proj1 (accepted_task_has_label_key spec_element_types)
           (JList [task "A" ""]) (task "A" "")).
  - reflexivity.
  - eapply occurs_here; [reflexivity | left].
  - exists (JStr "task"). split; reflexivity.
Defined.

(** C8 as stated fails: a task whose label is the empty string is
    accepted. *)
Lemma empty_label_accepted :
  ~ (forall process,
       BpmnModelingService._validate_bpmn spec_element_types process = Ok tt ->
       forall e, occurs e process -> task_like e -> has_nonempty_label e).
Proof.
  intros H.
  destruct (H (JList [task "A" ""]) eq_refl (task "A" ""))
    as (s & Hlabel & Hne).
  - eapply occurs_here; [reflexivity | left].
  - exists (JStr "task"). split; reflexivity.
  - cbn in Hlabel. injection Hlabel as <-. apply Hne. reflexivity.
Qed.

(** * Further properties of the editor service *)

Section ProposalLayer.

Import BpmnEditorService.

(** What acceptance by the per-verb checks tells about the proposal:
    both keys can be read and the function is one of the five verbs. *)
Lemma validate_llm_response_accepts response is_first_edit :
  _validate_llm_response response is_first_edit = Ok true ->
  is_first_edit = true \/ Py.contains "stop" response = Ok false ->
  exists verb args,
    Py.getitem response "function" = Ok (JStr verb) /\ verb ∈ known_verbs /\
    Py.getitem response "arguments" = Ok args.
Proof.
  intros H Hstop. unfold _validate_llm_response in H.
  assert (Hnow : (if negb is_first_edit then Py.contains "stop" response
                  else Ok false) = Ok false).
  { destruct Hstop as [-> | ->]; [reflexivity|].
    destruct (negb is_first_edit); reflexivity. }
  rewrite Hnow in H. cbn [rbind] in H.
  destruct (Py.not_in "function" response) as [nf|] eqn:Hnf;
    cbn [rbind] in H; [|discriminate].
  match type of H with
  | rbind ?m _ = _ => destruct m as [inc|]; cbn [rbind] in H; [|discriminate]
  end.
  match type of H with
  | rbind ?m _ = _ => destruct m as [[|]|]; cbn [rbind] in H; try discriminate
  end.
  destruct (Py.getitem response "function") as [fn|] eqn:Hfn;
    cbn [rbind] in H; [|discriminate].
  destruct (Py.getitem response "arguments") as [args|] eqn:Hargs;
    cbn [rbind] in H; [|discriminate].
  destruct fn as [| | |verb| |]; try discriminate.
  exists verb, args. split; [reflexivity|]. split; [|reflexivity].
  unfold Py.eq_str, known_verbs in *.
  destruct (String.eqb_spec verb "delete_element") as [->|_];
    [repeat first [left | right]|].
  destruct (String.eqb_spec verb "redirect_branch") as [->|_];
    [repeat first [left | right]|].
  destruct (String.eqb_spec verb "add_element") as [->|_];
    [repeat first [left | right]|].
  destruct (String.eqb_spec verb "move_element") as [->|_];
    [repeat first [left | right]|].
  destruct (String.eqb_spec verb "update_element") as [->|_];
    [repeat first [left | right]|].
  discriminate.
Qed.

(** The validator has one normal result, [True]. *)
Lemma validate_llm_response_true response is_first_edit b :
  _validate_llm_response response is_first_edit = Ok b -> b = true.
Proof.
  unfold _validate_llm_response. intros H.
  repeat (cbn [rbind] in H;
          match type of H with
          | Raise _ = Ok _ => discriminate H
          | Ok true = Ok _ => congruence
          | rbind ?m _ = _ => destruct m
          | (if ?c then _ else _) = _ => destruct c
          end).
Qed.

End ProposalLayer.

Section ProposalLayerRuns.

Import BpmnEditorService.
Context {St : Type}.
Variable call : St -> prompt -> outcome * St.
Variable lib : edit_library.
Variable self_process : json.
Variable change_request : string.

(** One iteration of the intermediate-proposal loop. *)
Lemma intermediate_edit_proposal_loop_S n attempts updated_process error_message w :
  intermediate_edit_proposal_loop call (S n) attempts updated_process
    error_message w =
  match (if Nat.eqb (attempts + 1) 1 then Some (IntermediatePrompt updated_process)
         else option_map EditingErrorPrompt error_message) with
  | None => (Raise UnboundLocalError, w)
  | Some prompt =>
      match call (oracle w) prompt with
      | (Returned response, s') =>
          match _validate_llm_response response false with
          | Ok _ => (Ok response, add_validation (add_call s' w))
          | Raise e =>
              if is_ValueError e then
                intermediate_edit_proposal_loop call n (attempts + 1)
                  updated_process (Some e) (add_validation (add_call s' w))
              else (Raise e, add_validation (add_call s' w))
          end
      | (Failed e, s') =>
          if is_ValueError e then
            intermediate_edit_proposal_loop call n (attempts + 1)
              updated_process (Some e) (add_call s' w)
          else (Raise e, add_call s' w)
      end
  end.
Proof.
  cbn [intermediate_edit_proposal_loop].
  unfold bind, try_except, count_validation, lift, llm_call, ret, raise.
  destruct (Nat.eqb (attempts + 1) 1).
  - destruct (call (oracle w) (IntermediatePrompt updated_process))
      as [[response|e] s']; [|destruct (is_ValueError e); reflexivity].
    destruct (_validate_llm_response response false) as [b|e]; [reflexivity|].
    destruct (is_ValueError e); reflexivity.
  - destruct error_message as [err|]; [|reflexivity]. cbn [option_map].
    destruct (call (oracle w) (EditingErrorPrompt err))
      as [[response|e] s']; [|destruct (is_ValueError e); reflexivity].
    destruct (_validate_llm_response response false) as [b|e]; [reflexivity|].
    destruct (is_ValueError e); reflexivity.
Qed.

Lemma initial_loop_returns_validated n attempts response w r w' :
  initial_edit_proposal_loop call n attempts response w = (Ok r, w') ->
  answered_by call response ->
  _validate_llm_response r true = Ok true /\ answered_by call r.
Proof.
  revert attempts response w.
  induction n as [|n IH]; intros attempts response w H Hans; [discriminate|].
  rewrite initial_edit_proposal_loop_S in H.
  destruct (_validate_llm_response response true) as [b|e] eqn:Hv.
  - injection H as <- _. split; [|exact Hans].
    rewrite Hv. f_equal. eapply validate_llm_response_true, Hv.
  - destruct (is_ValueError e); [|discriminate].
    destruct (call (oracle w) (EditingErrorPrompt e)) as [[r'|e'] s'] eqn:Hc;
      [|discriminate].
    eapply IH; [exact H|]. exists (oracle w), (EditingErrorPrompt e), s'. exact Hc.
Qed.

(** X1: What [_get_initial_edit_proposal] returns is an answer of the facade
    that has passed the validator as a first proposal. *)
Theorem initial_proposal_is_validated max_retries w r w' :
  _get_initial_edit_proposal call self_process change_request max_retries w
    = (Ok r, w') ->
  _validate_llm_response r true = Ok true /\ answered_by call r.
Proof.
  unfold _get_initial_edit_proposal, bind, llm_call. intros H.
  destruct (call (oracle w) (EditPrompt self_process change_request))
    as [[response|e] s'] eqn:Hc; [|discriminate].
  eapply initial_loop_returns_validated; [exact H|].
  exists (oracle w), (EditPrompt self_process change_request), s'. exact Hc.
Qed.

Lemma intermediate_loop_returns_validated n attempts p err w r w' :
  intermediate_edit_proposal_loop call n attempts p err w = (Ok r, w') ->
  _validate_llm_response r false = Ok true /\ answered_by call r.
Proof.
  revert attempts err w.
  induction n as [|n IH]; intros attempts err w H; [discriminate|].
  rewrite intermediate_edit_proposal_loop_S in H.
  destruct (if Nat.eqb (attempts + 1) 1 then Some (IntermediatePrompt p)
            else option_map EditingErrorPrompt err) as [q|]; [|discriminate].
  destruct (call (oracle w) q) as [[response|e] s'] eqn:Hc.
  - destruct (_validate_llm_response response false) as [b|e] eqn:Hv.
    + injection H as <- _. split.
      * rewrite Hv. f_equal. eapply validate_llm_response_true, Hv.
      * exists (oracle w), q, s'. exact Hc.
    + destruct (is_ValueError e); [|discriminate]. eapply IH, H.
  - destruct (is_ValueError e); [|discriminate]. eapply IH, H.
Qed.

(** X2: What [_get_intermediate_edit_proposal] returns is an answer of the
    facade that has passed the validator with [is_first_edit=False]. *)
Theorem intermediate_proposal_is_validated updated_process max_retries w r w' :
  _get_intermediate_edit_proposal call updated_process max_retries w
    = (Ok r, w') ->
  _validate_llm_response r false = Ok true /\ answered_by call r.
Proof. apply intermediate_loop_returns_validated. Qed.

(** X3: A facade answer that is [None], a boolean or a number is not
    refused by the validator's [ValueError] but by the [TypeError] of its
    first [in] test, which the proposal loops do not catch: both end at
    once, whatever attempts are left. *)
Theorem scalar_answer_escapes_proposal_loops r :
  is_scalar r = true ->
  (forall is_first_edit, _validate_llm_response r is_first_edit = Raise TypeError) /\
  (forall max_retries w s',
     call (oracle w) (EditPrompt self_process change_request) = (Returned r, s') ->
     _get_initial_edit_proposal call self_process change_request (S max_retries) w
     = (Raise TypeError, add_validation (add_call s' w))) /\
  (forall updated_process max_retries w s',
     call (oracle w) (IntermediatePrompt updated_process) = (Returned r, s') ->
     _get_intermediate_edit_proposal call updated_process (S max_retries) w
     = (Raise TypeError, add_validation (add_call s' w))).
Proof.
  intros Hr.
  assert (Hv : forall b, _validate_llm_response r b = Raise TypeError).
  { intros [|]; destruct r; try discriminate; reflexivity. }
  split; [exact Hv|]. split.
  - intros n w s' Hc. unfold _get_initial_edit_proposal, bind, llm_call.
    rewrite Hc, initial_edit_proposal_loop_S, Hv. reflexivity.
  - intros p n w s' Hc. unfold _get_intermediate_edit_proposal.
    rewrite intermediate_edit_proposal_loop_S. cbn [Nat.add Nat.eqb].
    rewrite Hc, Hv. reflexivity.
Qed.

End ProposalLayerRuns.

Lemma initial_proposal_is_validated_witness :
  BpmnEditorService._validate_llm_response (delete_proposal "A") true = Ok true /\
  answered_by scripted_facade (delete_proposal "A").
Proof.
  apply (initial_proposal_is_validated scripted_facade (JList []) "remove A" 3
           (world0 [Returned (JDict []); Returned (delete_proposal "A")])
           (delete_proposal "A") (World [] 2 2 0 0)).
  reflexivity.
Defined.

Lemma intermediate_proposal_is_validated_witness :
  BpmnEditorService._validate_llm_response stop_proposal false = Ok true /\
  answered_by scripted_facade stop_proposal.
Proof.
  apply (intermediate_proposal_is_validated scripted_facade (JList []) 3
           (world0 [Returned (JDict []); Returned stop_proposal])
           stop_proposal (World [] 2 2 0 0)).
  reflexivity.
Defined.

Lemma scalar_answer_escapes_proposal_loops_witness :
  BpmnEditorService._get_initial_edit_proposal (constant_facade JNull)
    (JList []) "remove A" 3 (world0 tt)
  = (Raise TypeError, World tt 1 1 0 0).
Proof.
  apply (proj1 (proj2 (scalar_answer_escapes_proposal_loops
                         (constant_facade JNull) (JList []) "remove A" JNull
                         eq_refl)) 2 (world0 tt) tt).
  reflexivity.
Defined.

Section Dispatch.

Import BpmnEditorService.
Variable lib : edit_library.

Lemma edit_functions_known verb :
  verb ∈ known_verbs -> exists f, edit_functions lib (JStr verb) = Ok f.
Proof.
  unfold known_verbs. intros H. cbn [edit_functions].
  repeat (apply elem_of_cons in H as [-> | H]; [eexists; reflexivity|]).
  inversion H.
Qed.

Lemma known_verb_cases verb :
  verb ∈ known_verbs ->
  verb = "delete_element" \/ verb = "redirect_branch" \/ verb = "add_element" \/
  verb = "move_element" \/ verb = "update_element".
Proof.
  unfold known_verbs. intros H.
  repeat (apply elem_of_cons in H as [-> | H]; [tauto|]).
  inversion H.
Qed.

Lemma edit_functions_unknown fn :
  (forall verb, fn = JStr verb -> verb ∉ known_verbs) ->
  exists e, is_ProcessException e = false /\
            (e = TypeError \/ e = KeyError fn) /\
            forall lib' : edit_library, edit_functions lib' fn = Raise e.
Proof.
  intros H. destruct fn as [| | |verb| |]; cbn [edit_functions];
    try (eexists; split; [|split]; [ | |intros lib'; reflexivity];
         [reflexivity | auto]; fail).
  specialize (H verb eq_refl).
  assert (Hne : verb <> "delete_element" /\ verb <> "redirect_branch" /\
                verb <> "add_element" /\ verb <> "move_element" /\
                verb <> "update_element").
  { unfold known_verbs in H. repeat split; intros ->; apply H;
      repeat first [left | right]. }
  destruct Hne as (N1 & N2 & N3 & N4 & N5).
  apply String.eqb_neq in N1, N2, N3, N4, N5.
  exists (KeyError (JStr verb)). split; [reflexivity|]. split; [auto|].
  intros lib'. rewrite N1, N2, N3, N4, N5. reflexivity.
Qed.

Lemma known_verb_dec verb : verb ∈ known_verbs \/ verb ∉ known_verbs.
Proof. destruct (decide (verb ∈ known_verbs)); auto. Qed.

(** X4: A proposal the validator has accepted (as a first proposal, or
    without a stop marker) always finds its edit function: on it
    [_update_process] is the call of that function on the process and the
    arguments, followed by the read of "process" in what it returns. *)
Theorem validated_proposal_finds_its_function proposal is_first_edit :
  _validate_llm_response proposal is_first_edit = Ok true ->
  is_first_edit = true \/ Py.contains "stop" proposal = Ok false ->
  exists verb args f,
    Py.getitem proposal "function" = Ok (JStr verb) /\
    Py.getitem proposal "arguments" = Ok args /\
    edit_functions lib (JStr verb) = Ok f /\
    forall process,
      _update_process lib process proposal
      = (kwargs <- Py.kwargs args ;;
         res <- f process kwargs ;;
         Py.getitem res "process").
Proof.
  intros Hv Hstop.
  destruct (validate_llm_response_accepts _ _ Hv Hstop)
    as (verb & args & Hfn & Hknown & Hargs).
  destruct (edit_functions_known verb Hknown) as [f Hf].
  exists verb, args, f. repeat split; try assumption.
  intros process. unfold _update_process. rewrite Hfn, Hargs. cbn [rbind].
  rewrite Hf. reflexivity.
Qed.

Lemma update_process_undispatchable proposal :
  ~ dispatchable proposal ->
  exists e,
    is_ProcessException e = false /\
    (e = TypeError \/ exists key, e = KeyError key) /\
    forall (lib' : edit_library) process,
      _update_process lib' process proposal = Raise e.
Proof.
  intros Hnot. unfold _update_process.
  destruct (Py.getitem proposal "function") as [fn|e] eqn:Hfn.
  2: { exists e. destruct proposal as [| | | | |fields]; cbn in Hfn;
         try (injection Hfn as <-; repeat split; auto; fail).
       destruct (Py.lookup_key "function" fields); [discriminate|].
       injection Hfn as <-. repeat split; eauto. }
  destruct (Py.getitem proposal "arguments") as [args|e] eqn:Hargs.
  2: { exists e. destruct proposal as [| | | | |fields]; cbn in Hargs;
         try discriminate.
       destruct (Py.lookup_key "arguments" fields); [discriminate|].
       injection Hargs as <-. repeat split; eauto. }
  cbn [rbind].
  assert (Hcases : (exists verb, fn = JStr verb /\ verb ∈ known_verbs) \/
                   (forall verb, fn = JStr verb -> verb ∉ known_verbs)).
  { destruct fn as [| | |verb| |]; try (right; intros v [=]; fail).
    destruct (known_verb_dec verb) as [Hk|Hk]; [left; eauto|].
    right. intros v [= <-]. exact Hk. }
  destruct Hcases as [(verb & -> & Hknown) | Hunknown].
  - destruct args as [| | | | |fields].
    6: { exfalso. apply Hnot. exists verb, fields. auto. }
    all: exists TypeError; split; [reflexivity|]; split; [auto|];
      intros lib' process;
      destruct (known_verb_cases verb Hknown) as [-> | [-> | [-> | [-> | ->]]]];
      reflexivity.
  - destruct (edit_functions_unknown fn Hunknown) as (e & Hp & Hkind & He).
    exists e. split; [exact Hp|]. split.
    + destruct Hkind as [-> | ->]; eauto.
    + intros lib' process. rewrite He. reflexivity.
Qed.

(** X5: A proposal that is not dispatchable (no readable "function" or
    "arguments", an unknown verb, arguments that are no mapping) never
    reaches the library: [_update_process] raises a [KeyError] or a
    [TypeError], the same for every library and tree, and never a
    [ProcessException]. *)
Theorem undispatchable_proposal_raises proposal :
  ~ dispatchable proposal ->
  exists e,
    is_ProcessException e = false /\
    (e = TypeError \/ exists key, e = KeyError key) /\
    forall (lib' : edit_library) process,
      _update_process lib' process proposal = Raise e.
Proof. apply update_process_undispatchable. Qed.

End Dispatch.

Section EditRuns.

Import BpmnEditorService.
Context {St : Type}.
Variable call : St -> prompt -> outcome * St.
Variable lib : edit_library.
Variable self_process : json.
Variable change_request : string.

(** X6: The apply-retry loop re-prompts on a [ProcessException] only: any
    other exception of [_update_process] leaves the loop at once, with no
    facade call; so does, in particular, a proposal that is not
    dispatchable, whatever attempts are left. *)
Theorem apply_loop_reraises_other_exceptions n attempts process proposal w :
  (forall e,
     _update_process lib process proposal = Raise e ->
     is_ProcessException e = false ->
     attempt_process_update_loop call lib change_request (S n) attempts
       process proposal w = (Raise e, add_apply w)) /\
  (~ dispatchable proposal ->
   exists e,
     (e = TypeError \/ exists key, e = KeyError key) /\
     attempt_process_update_loop call lib change_request (S n) attempts
       process proposal w = (Raise e, add_apply w)).
Proof.
  assert (H1 : forall e,
             _update_process lib process proposal = Raise e ->
             is_ProcessException e = false ->
             attempt_process_update_loop call lib change_request (S n) attempts
               process proposal w = (Raise e, add_apply w)).
  { intros e He Hp. rewrite attempt_process_update_loop_S, He, Hp. reflexivity. }
  split; [exact H1|]. intros Hnot.
  destruct (update_process_undispatchable proposal Hnot) as (e & Hp & Hkind & He).
  exists e. split; [exact Hkind|]. apply H1; [apply He | exact Hp].
Qed.

Lemma built_by_mono lib' k k' p t :
  built_by lib' k p t -> k <= k' -> built_by lib' k' p t.
Proof.
  intros H. revert k'. induction H as [k p | k p proposal p' t Hup _ IH];
    intros k' Hle; [apply built_none|].
  destruct k' as [|k']; [lia|].
  eapply built_step; [exact Hup|]. apply IH. lia.
Qed.

Lemma attempt_loop_built n attempts process proposal w t w' :
  attempt_process_update_loop call lib change_request n attempts
    process proposal w = (Ok t, w') ->
  built_by lib 1 process t.
Proof.
  intros H. apply attempt_loop_returns in H as [-> | (proposal' & Hup)].
  - apply built_none.
  - eapply built_step; [exact Hup | apply built_none].
Qed.

Lemma built_by_after_one lib' k p p' t :
  built_by lib' 1 p p' -> built_by lib' k p' t -> built_by lib' (S k) p t.
Proof.
  intros H1 H2. inversion H1 as [|? ? proposal q ? Hup Hrest]; subst.
  - eapply built_by_mono; [exact H2 | lia].
  - inversion Hrest; subst. eapply built_step; eassumption.
Qed.

Lemma intermediate_edits_built n p w t w' :
  _apply_intermediate_edits call lib change_request p n w = (Ok t, w') ->
  built_by lib (n - 1) p t.
Proof.
  revert p w. induction n as [|n IH]; intros p w H; [discriminate|].
  rewrite apply_intermediate_edits_S in H.
  destruct (_get_intermediate_edit_proposal call p 3 (add_round w))
    as [[response|e] w1]; [|discriminate].
  destruct (Py.contains "stop" response) as [[|]|e]; [| |discriminate].
  - injection H as <- _. apply built_none.
  - destruct (_attempt_process_update_with_retries call lib change_request
                p response 3 w1) as [[p'|e] w2] eqn:Ha; [|discriminate].
    apply attempt_loop_built in Ha.
    destruct n as [|n]; [discriminate|].
    apply IH in H. cbn [Nat.sub] in *. rewrite Nat.sub_0_r in *.
    eapply built_by_after_one; eassumption.
Qed.

(** X7: Whatever tree [edit_bpmn] returns comes from the tree it was given by
    at most seven successful library edits, each applied to the tree the
    one before returned (one for the initial round, one for each round but
    the one that stops): the orchestrator itself never alters a tree. *)
Theorem edit_bpmn_returns_library_built_tree w t w' :
  edit_bpmn call lib self_process change_request w = (Ok t, w') ->
  built_by lib 7 self_process t.
Proof.
  unfold edit_bpmn, bind. intros H.
  destruct (_apply_initial_edit call lib self_process change_request w)
    as [[p|e] w1] eqn:Hinit; [|discriminate].
  apply intermediate_edits_built in H. cbn [Nat.sub] in H.
  unfold _apply_initial_edit, bind in Hinit.
  destruct (_get_initial_edit_proposal call self_process change_request 3 w)
    as [[response|e] w0]; [|discriminate].
  apply attempt_loop_built in Hinit.
  eapply built_by_after_one; eassumption.
Qed.

Lemma intermediate_edits_need_stop n p w :
  never_stops call ->
  exists e w', _apply_intermediate_edits call lib change_request p n w
               = (Raise e, w').
Proof.
  intros Hnever. revert p w. induction n as [|n IH]; intros p w;
    [cbn; eauto|].
  rewrite apply_intermediate_edits_S.
  destruct (_get_intermediate_edit_proposal call p 3 (add_round w))
    as [[response|e] w1] eqn:Hget; [|eauto].
  apply intermediate_loop_returns_validated in Hget as (_ & s & q & s' & Hans).
  pose proof (Hnever _ _ _ _ Hans) as Hns.
  destruct (Py.contains "stop" response) as [[|]|e]; [congruence| |eauto].
  destruct (_attempt_process_update_with_retries call lib change_request
              p response 3 w1) as [[p'|e] w2]; [apply IH | eauto].
Qed.

(** X8: [edit_bpmn] returns a tree only on a stop signal: with a facade that
    never answers with a value containing "stop", every run ends in an
    exception, however well the edits apply. *)
Theorem edit_bpmn_needs_stop w :
  never_stops call ->
  exists e w', edit_bpmn call lib self_process change_request w = (Raise e, w').
Proof.
  intros Hnever. unfold edit_bpmn, bind.
  destruct (_apply_initial_edit call lib self_process change_request w)
    as [[p|e] w1]; [|eauto].
  apply intermediate_edits_need_stop, Hnever.
Qed.

End EditRuns.

Lemma apply_loop_reraises_other_exceptions_witness :
  exists e,
    (e = TypeError \/ exists key, e = KeyError key) /\
    BpmnEditorService.attempt_process_update_loop (constant_facade stop_proposal)
      emptying_library "remove A" 3 0 (JList [task "A" "a"])
      (JDict [("function", JStr "rename_element"); ("arguments", JDict [])])
      (world0 tt)
    = (Raise e, add_apply (world0 tt)).
Proof.
  apply (proj2 (apply_loop_reraises_other_exceptions
                  (constant_facade stop_proposal) emptying_library "remove A"
                  2 0 (JList [task "A" "a"])
                  (JDict [("function", JStr "rename_element");
                          ("arguments", JDict [])])
                  (world0 tt))).
  intros (verb & fields & Hfn & Hknown & _).
  injection Hfn as <-.
  apply known_verb_cases in Hknown as [H | [H | [H | [H | H]]]]; discriminate.
Defined.

Lemma edit_bpmn_returns_library_built_tree_witness :
  built_by emptying_library 7 (JList [task "A" "a"]) (JList []).
Proof.
  apply (edit_bpmn_returns_library_built_tree scripted_facade emptying_library
           (JList [task "A" "a"]) "remove A"
           (world0 [Returned (delete_proposal "A"); Returned stop_proposal])
           (JList []) (World [] 2 2 1 1)).
  reflexivity.
Defined.

Lemma edit_bpmn_needs_stop_witness :
  exists e w',
    BpmnEditorService.edit_bpmn (constant_facade (delete_proposal "A"))
      emptying_library (JList [task "A" "a"]) "remove A" (world0 tt)
    = (Raise e, w').
Proof.
  apply (edit_bpmn_needs_stop (constant_facade (delete_proposal "A"))
           emptying_library (JList [task "A" "a"]) "remove A" (world0 tt)).
  intros s p response s' H. injection H as <- _. discriminate.
Defined.

Lemma undispatchable_proposal_raises_witness :
  exists e,
    is_ProcessException e = false /\
    (e = TypeError \/ exists key, e = KeyError key) /\
    forall (lib' : BpmnEditorService.edit_library) process,
      BpmnEditorService._update_process lib' process
        (JDict [("function", JStr "delete_element");
                ("arguments", JList [JStr "element_id"])])
      = Raise e.
Proof.
  apply undispatchable_proposal_raises.
  intros (verb & fields & _ & _ & Hargs). discriminate.
Defined.

Lemma validated_proposal_finds_its_function_witness :
  exists verb args f,
    Py.getitem (delete_proposal "A") "function" = Ok (JStr verb) /\
    Py.getitem (delete_proposal "A") "arguments" = Ok args /\
    BpmnEditorService.edit_functions emptying_library (JStr verb) = Ok f /\
    forall process,
      BpmnEditorService._update_process emptying_library process
        (delete_proposal "A")
      = (kwargs <- Py.kwargs args ;;
         res <- f process kwargs ;;
         Py.getitem res "process").
Proof.
  apply (validated_proposal_finds_its_function emptying_library
           (delete_proposal "A") true).
  - reflexivity.
  - left. reflexivity.
Defined.

Section ArgumentValues.

Import BpmnEditorService.

Lemma has_key_keys key (fields fields' : list (string * json)) :
  fields.*1 = fields'.*1 -> Py.has_key key fields = Py.has_key key fields'.
Proof.
  unfold Py.has_key. revert fields'. induction fields as [|[k v] fields IH];
    intros [|[k' v'] fields'] H; try discriminate; [reflexivity|].
  cbn in H. injection H as <- H. cbn [existsb fst].
  rewrite (IH fields' H). reflexivity.
Qed.

(** X9: The validator looks at the keys of the arguments and never at their
    values: two proposals with the same function and the same argument
    keys, in the same order, get the same verdict. *)
Theorem validate_llm_response_ignores_values function_to_call fields fields'
    is_first_edit :
  fields.*1 = fields'.*1 ->
  _validate_llm_response
    (JDict [("function", function_to_call); ("arguments", JDict fields)])
    is_first_edit
  = _validate_llm_response
      (JDict [("function", function_to_call); ("arguments", JDict fields')])
      is_first_edit.
Proof.
  intros Hkeys.
  assert (Hlen : length fields = length fields').
  { rewrite <- (length_fmap fst fields), Hkeys. apply length_fmap. }
  assert (Hcontains : forall key,
             Py.contains key (JDict fields) = Py.contains key (JDict fields')).
  { intros key. cbn [Py.contains]. f_equal. apply has_key_keys, Hkeys. }
  assert (Hlength : Py.len (JDict fields) = Py.len (JDict fields')).
  { cbn [Py.len]. f_equal. exact Hlen. }
  assert (Hin : forall key a,
             Py.contains key (JDict [("function", function_to_call);
                                     ("arguments", JDict a)])
             = Ok (String.eqb "function" key || (String.eqb "arguments" key || false))).
  { reflexivity. }
  assert (Hfn : forall a,
             Py.getitem (JDict [("function", function_to_call);
                                ("arguments", JDict a)]) "function"
             = Ok function_to_call) by reflexivity.
  assert (Hargs : forall a,
             Py.getitem (JDict [("function", function_to_call);
                                ("arguments", JDict a)]) "arguments"
             = Ok (JDict a)) by reflexivity.
  unfold _validate_llm_response, Py.not_in.
  rewrite !Hin, !Hfn, !Hargs. cbn [rbind].
  rewrite !Hcontains, Hlength. reflexivity.
Qed.

End ArgumentValues.

Lemma validate_llm_response_ignores_values_witness :
  BpmnEditorService._validate_llm_response
    (JDict [("function", JStr "delete_element");
            ("arguments", JDict [("element_id", JStr "A")])]) true
  = BpmnEditorService._validate_llm_response
      (JDict [("function", JStr "delete_element");
              ("arguments", JDict [("element_id", JNull)])]) true.
Proof.
  apply validate_llm_response_ignores_values. reflexivity.
Defined.

(** * Further properties of the modeling service *)

Section CreationRuns.

Import BpmnModelingService.
Context {St : Type}.
Variable supported_elements : list string.
Variable call : St -> prompt -> outcome * St.

(** One iteration of the loop of [create_bpmn]. *)
Lemma create_bpmn_loop_S n attempts p w :
  create_bpmn_loop supported_elements call (S n) attempts p w =
  match call (oracle w) p with
  | (Failed e, s') => (Raise e, add_call s' w)
  | (Returned response, s') =>
      match (process <- Py.getitem response "process" ;;
             _ <- _validate_bpmn supported_elements process ;;
             Ok process) with
      | Ok process => (Ok process, add_call s' w)
      | Raise e =>
          match (if Py.is_none response then Ok (JStr "N/A")
                 else Py.get response "process" (JStr "No process in response")) with
          | Ok _ =>
              create_bpmn_loop supported_elements call n (attempts + 1)
                (CreateRetryPrompt e) (add_call s' w)
          | Raise e' => (Raise e', add_call s' w)
          end
      end
  end.
Proof.
  cbn [create_bpmn_loop].
  unfold bind, try_except, lift, llm_call, ret, is_Exception.
  destruct (call (oracle w) p) as [[response|e] s']; [|reflexivity].
  destruct (Py.getitem response "process") as [process|e]; cbn [rbind].
  - destruct (_validate_bpmn supported_elements process) as [[]|e]; cbn [rbind];
      [reflexivity|].
    destruct (if Py.is_none response then Ok (JStr "N/A")
              else Py.get response "process" (JStr "No process in response"));
      reflexivity.
  - destruct (if Py.is_none response then Ok (JStr "N/A")
              else Py.get response "process" (JStr "No process in response"));
      reflexivity.
Qed.

Lemma create_bpmn_loop_returns n attempts p w process w' :
  create_bpmn_loop supported_elements call n attempts p w = (Ok process, w') ->
  _validate_bpmn supported_elements process = Ok tt /\
  exists response,
    answered_by call response /\ Py.getitem response "process" = Ok process.
Proof.
  revert attempts p w. induction n as [|n IH]; intros attempts p w H;
    [discriminate|].
  rewrite create_bpmn_loop_S in H.
  destruct (call (oracle w) p) as [[response|e] s'] eqn:Hc; [|discriminate].
  destruct (Py.getitem response "process") as [q|e] eqn:Hq; cbn [rbind] in H.
  - destruct (_validate_bpmn supported_elements q) as [[]|e] eqn:Hv;
      cbn [rbind] in H.
    + injection H as <- _. split; [exact Hv|].
      exists response. split; [|exact Hq]. exists (oracle w), p, s'. exact Hc.
    + destruct (if Py.is_none response then Ok (JStr "N/A")
                else Py.get response "process" (JStr "No process in response"));
        [eapply IH, H | discriminate].
  - destruct (if Py.is_none response then Ok (JStr "N/A")
              else Py.get response "process" (JStr "No process in response"));
      [eapply IH, H | discriminate].
Qed.

(** X10: [create_bpmn] returns nothing but the "process" entry of an answer
    of the facade, and only once the Process Validator has accepted it. *)
Theorem create_bpmn_returns_validated_process message_history max_retries
    w process w' :
  create_bpmn supported_elements call message_history max_retries w
    = (Ok process, w') ->
  _validate_bpmn supported_elements process = Ok tt /\
  exists response,
    answered_by call response /\ Py.getitem response "process" = Ok process.
Proof. apply create_bpmn_loop_returns. Qed.

Lemma create_bpmn_loop_calls n attempts p w :
  match create_bpmn_loop supported_elements call n attempts p w with
  | (Ok _, w') => calls w < calls w' <= calls w + n
  | (Raise _, w') => calls w' <= calls w + n
  end.
Proof.
  revert attempts p w. induction n as [|n IH]; intros attempts p w;
    [cbn; lia|].
  rewrite create_bpmn_loop_S.
  destruct (call (oracle w) p) as [[response|e] s']; [|cbn; lia].
  match goal with
  | |- context [match ?r with Ok _ => _ | Raise _ => _ end] =>
      destruct r as [q|e]
  end; [cbn; lia|].
  destruct (if Py.is_none response then Ok (JStr "N/A")
            else Py.get response "process" (JStr "No process in response"));
    [|cbn; lia].
  specialize (IH (attempts + 1) (CreateRetryPrompt e) (add_call s' w)).
  destruct (create_bpmn_loop supported_elements call n (attempts + 1)
              (CreateRetryPrompt e) (add_call s' w)) as [[q|e'] w'];
    cbn in IH; lia.
Qed.

(** X11: [create_bpmn] calls the facade at most [max_retries] times, and at
    least once before it returns a process; with [max_retries = 0] it
    raises without any call. *)
Theorem create_bpmn_call_budget message_history max_retries w :
  match create_bpmn supported_elements call message_history max_retries w with
  | (Ok _, w') => calls w < calls w' <= calls w + max_retries
  | (Raise _, w') => calls w' <= calls w + max_retries
  end /\
  create_bpmn supported_elements call message_history 0 w
  = (Raise (Exception (Text
       "Max number of retries reached. Could not create the BPMN process.")), w).
Proof.
  split; [apply create_bpmn_loop_calls | reflexivity].
Qed.

Lemma create_bpmn_loop_unusable n attempts p w :
  always_returns call (unusable_answer supported_elements) ->
  exists w',
    create_bpmn_loop supported_elements call n attempts p w
    = (Raise (Exception (Text
         "Max number of retries reached. Could not create the BPMN process.")),
       w') /\
    calls w' = calls w + n.
Proof.
  intros Hall. revert attempts p w. induction n as [|n IH]; intros attempts p w.
  - exists w. split; [reflexivity | lia].
  - rewrite create_bpmn_loop_S.
    destruct (Hall (oracle w) p) as (response & s' & -> & Hbad).
    destruct Hbad as [-> | (fields & -> & Hinvalid)].
    + cbn [Py.getitem rbind Py.is_none].
      destruct (IH (attempts + 1) (CreateRetryPrompt TypeError) (add_call s' w))
        as (w' & -> & Hc).
      exists w'. split; [reflexivity|]. cbn in Hc. lia.
    + cbn [Py.getitem Py.is_none Py.get].
      destruct (Py.lookup_key "process" fields) as [q|] eqn:Hq; cbn [rbind].
      * destruct (Hinvalid q eq_refl) as [e ->]. cbn [rbind].
        destruct (IH (attempts + 1) (CreateRetryPrompt e) (add_call s' w))
          as (w' & -> & Hc).
        exists w'. split; [reflexivity|]. cbn in Hc. lia.
      * destruct (IH (attempts + 1)
                    (CreateRetryPrompt (KeyError (JStr "process")))
                    (add_call s' w)) as (w' & -> & Hc).
        exists w'. split; [reflexivity|]. cbn in Hc. lia.
Qed.

(** X12: With a facade whose every answer is [None] or a dict without a valid
    "process" entry, [create_bpmn] gives up after exactly [max_retries]
    calls, with its terminal exception. *)
Theorem create_bpmn_gives_up_after_max_retries message_history max_retries w :
  always_returns call (unusable_answer supported_elements) ->
  exists w',
    create_bpmn supported_elements call message_history max_retries w
    = (Raise (Exception (Text
         "Max number of retries reached. Could not create the BPMN process.")),
       w') /\
    calls w' = calls w + max_retries.
Proof. apply create_bpmn_loop_unusable. Qed.

(** X13: An answer that is neither a dict nor [None] (a string, a list, a
    number, a boolean) ends [create_bpmn] at once: the subscript raises
    inside the [try], and the handler's [response.get] raises an
    [AttributeError] that nothing catches, whatever attempts are left. *)
Theorem create_bpmn_attribute_error n attempts p w response s' :
  call (oracle w) p = (Returned response, s') ->
  response <> JNull -> (forall fields, response <> JDict fields) ->
  create_bpmn_loop supported_elements call (S n) attempts p w
  = (Raise AttributeError, add_call s' w).
Proof.
  intros Hc Hnull Hdict. rewrite create_bpmn_loop_S, Hc.
  destruct response as [| | | | |fields]; try reflexivity.
  - contradiction.
  - exfalso. eapply Hdict. reflexivity.
Qed.

End CreationRuns.

Lemma create_bpmn_returns_validated_process_witness :
  BpmnModelingService._validate_bpmn spec_element_types (JList [task "A" "a"])
    = Ok tt /\
  exists response,
    answered_by scripted_facade response /\
    Py.getitem response "process" = Ok (JList [task "A" "a"]).
Proof.
  apply (create_bpmn_returns_validated_process spec_element_types scripted_facade
           "history" 3
           (world0 [Returned (JDict [("process", JList [JNum 1])]);
                    Returned (JDict [("process", JList [task "A" "a"])])])
           (JList [task "A" "a"]) (World [] 2 0 0 0)).
  reflexivity.
Defined.

Lemma create_bpmn_gives_up_after_max_retries_witness :
  exists w',
    BpmnModelingService.create_bpmn spec_element_types
      (constant_facade (JDict [("process", JList [JDict []])])) "history" 3
      (world0 tt)
    = (Raise (Exception (Text
         "Max number of retries reached. Could not create the BPMN process.")),
       w') /\
    calls w' = calls (world0 tt) + 3.
Proof.
  apply (create_bpmn_gives_up_after_max_retries spec_element_types
           (constant_facade (JDict [("process", JList [JDict []])]))
           "history" 3 (world0 tt)).
  intros s p. exists (JDict [("process", JList [JDict []])]), s.
  split; [reflexivity|]. right.
  exists [("process", JList [JDict []])]. split; [reflexivity|].
  intros process H. injection H as <-. eexists. reflexivity.
Defined.

Lemma create_bpmn_attribute_error_witness :
  BpmnModelingService.create_bpmn_loop spec_element_types
    (constant_facade (JStr "no JSON here")) 3 0 (CreatePrompt "history")
    (world0 tt)
  = (Raise AttributeError, add_call tt (world0 tt)).
Proof.
  apply (create_bpmn_attribute_error spec_element_types
           (constant_facade (JStr "no JSON here")) 2 0 (CreatePrompt "history")
           (world0 tt) (JStr "no JSON here") tt).
  - reflexivity.
  - discriminate.
  - discriminate.
Defined.

Section ValidatorComposition.

Import BpmnModelingService.
Variable supported_elements : list string.

Local Abbreviation validate_element := (_validate_element supported_elements).
Local Abbreviation validate_bpmn := (_validate_bpmn supported_elements).

(** X14: Validation is element by element: a sequence is accepted exactly when
    its parts are.  Nothing is checked across elements; in particular a
    tree in which every element occurs twice is as valid as the tree
    itself, so no uniqueness of ids is enforced. *)
Theorem validate_bpmn_app l1 l2 :
  (_validate_bpmn supported_elements (JList (l1 ++ l2)) = Ok tt <->
   _validate_bpmn supported_elements (JList l1) = Ok tt /\
   _validate_bpmn supported_elements (JList l2) = Ok tt) /\
  (_validate_bpmn supported_elements (JList l1) = Ok tt ->
   _validate_bpmn supported_elements (JList (l1 ++ l1)) = Ok tt).
Proof.
  assert (Happ : forall a b,
             validate_bpmn (JList (a ++ b)) = Ok tt <->
             validate_bpmn (JList a) = Ok tt /\ validate_bpmn (JList b) = Ok tt).
  { intros a b. rewrite !validate_bpmn_unfold. cbn [Py.iter rbind].
    rewrite !for_each_ok. split.
    - intros H. split; intros x Hx; apply H, elem_of_app; auto.
    - intros [Ha Hb] x Hx. apply elem_of_app in Hx as [Hx|Hx]; auto. }
  split; [apply Happ|]. intros H. apply Happ. split; exact H.
Qed.

(** X15: An element of a supported type other than the task-likes and the
    two gateways needs an id and a type, and nothing else: it is accepted
    with whatever other fields it has, and so is the tree made of it. *)
Theorem other_supported_type_accepted e ty :
  Py.contains "id" e = Ok true ->
  Py.getitem e "type" = Ok ty ->
  Py.in_strings ty supported_elements = true ->
  Py.in_strings ty ["task"; "userTask"; "serviceTask"] = false ->
  Py.eq_str ty "exclusiveGateway" = false ->
  Py.eq_str ty "parallelGateway" = false ->
  validate_element e = Ok tt /\ validate_bpmn (JList [e]) = Ok tt.
Proof.
  intros Hid Hty Hsup Htask Hx Hp.
  assert (He : validate_element e = Ok tt).
  { unfold _validate_element, Py.not_in.
    rewrite Hid, (getitem_contains _ _ _ Hty), Hty. cbn [rbind negb].
    rewrite Hsup, Htask, Hx, Hp. reflexivity. }
  split; [exact He|].
  rewrite validate_bpmn_unfold. cbn [Py.iter rbind for_each].
  unfold validate_bpmn_body. rewrite He, Hty. cbn [rbind].
  rewrite Hx, Hp. reflexivity.
Qed.

Variable overflows : nat -> json -> bool.


End ValidatorComposition.

Lemma validate_bpmn_app_witness :
  BpmnModelingService._validate_bpmn spec_element_types
    (JList ([task "A" "a"] ++ [task "A" "a"])) = Ok tt.
Proof.
  apply (proj2 (validate_bpmn_app spec_element_types [task "A" "a"] [task "A" "a"])).
  reflexivity.
Defined.

Lemma other_supported_type_accepted_witness :
  BpmnModelingService._validate_element ("startEvent" :: spec_element_types)
    (JDict [("id", JStr "S"); ("type", JStr "startEvent")]) = Ok tt /\
  BpmnModelingService._validate_bpmn ("startEvent" :: spec_element_types)
    (JList [JDict [("id", JStr "S"); ("type", JStr "startEvent")]]) = Ok tt.
Proof.
  apply (other_supported_type_accepted ("startEvent" :: spec_element_types)
           (JDict [("id", JStr "S"); ("type", JStr "startEvent")])
           (JStr "startEvent")); reflexivity.
Defined.


Section ModelingServiceEdit.

Context {St : Type}.
Variable define_change_request : json -> string -> M St string.
Variable call : St -> prompt -> outcome * St.
Variable lib : BpmnEditorService.edit_library.

(** X17: [BpmnModelingService.edit_bpmn]: when [define_change_request] makes
    at most [d] facade calls, the whole edit makes at most [d + 48], and an
    exception of [define_change_request] ends it before the editor makes
    any call. *)
Theorem modeling_service_edit_bpmn_budget d process message_history :
  costs (define_change_request process message_history) d d ->
  costs (modeling_service_edit_bpmn define_change_request call lib process
           message_history) (d + 48) (d + 48) /\
  forall w e w',
    define_change_request process message_history w = (Raise e, w') ->
    modeling_service_edit_bpmn define_change_request call lib process
      message_history w = (Raise e, w').
Proof.
  intros Hd. split.
  - unfold modeling_service_edit_bpmn.
    eapply (costs_bind _ _ d d 48 48); try lia; [exact Hd|].
    intros change_request. unfold BpmnEditorService.edit_bpmn.
    eapply (costs_bind _ _ 6 6 42 42); try lia.
    + apply costs_apply_initial_edit.
    + intros p. apply (costs_apply_intermediate_edits call lib change_request p 7).
  - intros w e w' H. unfold modeling_service_edit_bpmn, bind. rewrite H.
    reflexivity.
Qed.

End ModelingServiceEdit.

Lemma modeling_service_edit_bpmn_budget_witness :
  costs (modeling_service_edit_bpmn
           (one_call_change_request (constant_facade stop_proposal) "remove A")
           (constant_facade stop_proposal) emptying_library (JList []) "history")
    (1 + 48) (1 + 48).
Proof.
  apply (modeling_service_edit_bpmn_budget
           (one_call_change_request (constant_facade stop_proposal) "remove A")
           (constant_facade stop_proposal) emptying_library 1 (JList [])
           "history").
  intros w. cbn. lia.
Defined.

(** * Properties of the OpenAI provider *)

Section ProviderProperties.

Import OpenAIProvider.
Variable float : Type.
Variable loads : string -> loaded.
Variable create : request float -> exn + list (option string).
Variable create_stream : request float -> exn + list chunk.
Variable O1 O3_MINI : string.
Variable output_mode : OutputMode.

Local Abbreviation provider_call := (OpenAIProvider.call float loads create O1 O3_MINI).
Local Abbreviation provider_stream := (OpenAIProvider.stream float create_stream).
Local Abbreviation provider_history :=
  (history float loads create create_stream O1 O3_MINI).

(** X18: In JSON mode [call] returns nothing but a dict, and that dict is
    what [json.loads] gives for the content of the first choice of the
    client's answer to the request sent: the model, the format
    "json_object", the messages with the prompt appended and, unless the
    model is of the o-series, the two sampling values; never a stream.
    Conversely every such answer is returned.  Parsed content of any other
    kind is refused with a [ValueError], content that does not parse with a
    plain [Exception], and any other exception of [json.loads] passes
    unchanged. *)
Theorem call_json_returns_dict model prompt messages max_tokens temperature sent :
  sent = Request model (Some "json_object")
           (messages ++ [Message "user" prompt])%list
           (if is_o_series O1 O3_MINI model then None else Some max_tokens)
           (if is_o_series O1 O3_MINI model then None else Some temperature)
           false ->
  (forall v ms,
     provider_call JSON model prompt messages max_tokens temperature = (inr v, ms) ->
     is_dict v = true /\
     ms = (messages ++ [Message "user" prompt])%list /\
     exists raw_output rest,
       create sent = inr (Some raw_output :: rest) /\
       loads raw_output = Parsed v) /\
  (forall raw_output rest,
     create sent = inr (Some raw_output :: rest) ->
     provider_call JSON model prompt messages max_tokens temperature
     = (match loads raw_output with
        | Parsed result =>
            if is_dict result then inr result else inl (InvalidJsonValue result)
        | JSONDecodeError => inl InvalidJson
        | LoadsRaised e => inl (LoadsError e)
        end,
        (messages ++ [Message "user" prompt])%list)) /\
  (forall result e,
     OpenAIProvider.is_ValueError (InvalidJsonValue result) = true /\
     OpenAIProvider.is_ValueError InvalidJson = false /\
     (OpenAIProvider.is_ValueError (LoadsError e) = true <->
      exists m, e = ValueError m)).
Proof.
  intros Hsent.
  assert (Hcall :
    provider_call JSON model prompt messages max_tokens temperature
    = (match create sent with
       | inl e => inl (ClientError e)
       | inr [] => inl IndexError
       | inr (None :: _) => inl EmptyResponse
       | inr (Some raw_output :: _) => _process_response loads JSON raw_output
       end,
       (messages ++ [Message "user" prompt])%list)).
  { subst sent. unfold OpenAIProvider.call.
    destruct (is_o_series O1 O3_MINI model); reflexivity. }
  split; [|split].
  - intros v ms H. rewrite Hcall in H. injection H as H <-.
    destruct (create sent) as [e|[|[raw|] rest]]; try discriminate.
    unfold _process_response in H.
    destruct (loads raw) as [result| |e] eqn:Hl; try discriminate.
    destruct (is_dict result) eqn:Hd; [|discriminate].
    injection H as <-. split; [exact Hd|]. split; [reflexivity|].
    exists raw, rest. split; [reflexivity | exact Hl].
  - intros raw rest Hc. rewrite Hcall, Hc. unfold _process_response.
    destruct (loads raw) as [result| |e]; try reflexivity.
    destruct (is_dict result); reflexivity.
  - intros result e. split; [reflexivity|]. split; [reflexivity|].
    destruct e; cbn; split; try discriminate; eauto;
      intros [? ?]; discriminate.
Qed.

(** X19: For the two o-series models the request [call] sends carries
    neither [max_tokens] nor [temperature]: the client is asked for the
    model, the response format and the messages with the prompt appended,
    not streamed, and the result of [call] is read off its answer to that
    request alone, so the values the caller gives have no effect.  For any
    other model both values are in the request, as given. *)
Theorem call_o_series_ignores_sampling model prompt messages
    max_tokens temperature sent sampled :
  sent = Request model
           (Some match output_mode with JSON => "json_object" | _ => "text" end)
           (messages ++ [Message "user" prompt])%list None None false ->
  sampled = Request model
              (Some match output_mode with JSON => "json_object" | _ => "text" end)
              (messages ++ [Message "user" prompt])%list
              (Some max_tokens) (Some temperature) false ->
  (is_o_series O1 O3_MINI model = true ->
   (forall client client' : request float -> exn + list (option string),
      client sent = client' sent ->
      OpenAIProvider.call float loads client O1 O3_MINI output_mode
        model prompt messages max_tokens temperature
      = OpenAIProvider.call float loads client' O1 O3_MINI output_mode
          model prompt messages max_tokens temperature) /\
   (forall e, create sent = inl e ->
      provider_call output_mode model prompt messages max_tokens temperature
      = (inl (ClientError e), (messages ++ [Message "user" prompt])%list)) /\
   (forall raw_output rest, create sent = inr (Some raw_output :: rest) ->
      provider_call output_mode model prompt messages max_tokens temperature
      = (_process_response loads output_mode raw_output,
         (messages ++ [Message "user" prompt])%list)) /\
   (forall max_tokens' temperature',
      provider_call output_mode model prompt messages max_tokens temperature
      = provider_call output_mode model prompt messages max_tokens' temperature'))
  /\
  (is_o_series O1 O3_MINI model = false ->
   (forall client client' : request float -> exn + list (option string),
      client sampled = client' sampled ->
      OpenAIProvider.call float loads client O1 O3_MINI output_mode
        model prompt messages max_tokens temperature
      = OpenAIProvider.call float loads client' O1 O3_MINI output_mode
          model prompt messages max_tokens temperature) /\
   (forall e, create sampled = inl e ->
      provider_call output_mode model prompt messages max_tokens temperature
      = (inl (ClientError e), (messages ++ [Message "user" prompt])%list)) /\
   (forall raw_output rest, create sampled = inr (Some raw_output :: rest) ->
      provider_call output_mode model prompt messages max_tokens temperature
      = (_process_response loads output_mode raw_output,
         (messages ++ [Message "user" prompt])%list))).
Proof.
  intros -> ->. split; intros Ho.
  - split; [|split; [|split]].
    + intros client client' Hc. unfold OpenAIProvider.call.
      rewrite Ho, Hc. reflexivity.
    + intros e Hc. unfold OpenAIProvider.call. rewrite Ho, Hc. reflexivity.
    + intros raw rest Hc. unfold OpenAIProvider.call. rewrite Ho, Hc.
      reflexivity.
    + intros mt t. unfold OpenAIProvider.call. rewrite Ho. reflexivity.
  - split; [|split].
    + intros client client' Hc. unfold OpenAIProvider.call.
      rewrite Ho, Hc. reflexivity.
    + intros e Hc. unfold OpenAIProvider.call. rewrite Ho, Hc. reflexivity.
    + intros raw rest Hc. unfold OpenAIProvider.call. rewrite Ho, Hc.
      reflexivity.
Qed.

Lemma stream_items_clean items :
  Forall has_choice items ->
  stream_items items = (omap first_content items, None).
Proof.
  induction 1 as [|item items Hitem _ IH]; [reflexivity|].
  destruct item as [[|[text|] choices]|]; cbn [stream_items omap first_content].
  - exfalso. apply Hitem. reflexivity.
  - rewrite IH. reflexivity.
  - exact IH.
  - exact IH.
Qed.

Lemma stream_items_until_no_choice items rest :
  Forall has_choice items ->
  stream_items (items ++ CompletionChunk [] :: rest)
  = (omap first_content items, Some IndexError).
Proof.
  induction 1 as [|item items Hitem _ IH]; [reflexivity|].
  destruct item as [[|[text|] choices]|];
    cbn [stream_items omap first_content app].
  - exfalso. apply Hitem. reflexivity.
  - rewrite IH. reflexivity.
  - exact IH.
  - exact IH.
Qed.

(** X20: [stream], consumed to the end, yields in order the first-choice
    contents that are not [None], and nothing else, as long as every chunk
    has a choice; the first chunk without any choice ends it with an
    [IndexError], after the contents before it and whatever follows it.
    The prompt is appended to the messages in both cases. *)
Theorem stream_yields_contents model prompt messages max_tokens temperature
    items rest :
  Forall has_choice items ->
  (create_stream (Request model None (messages ++ [Message "user" prompt])%list
                    (Some max_tokens) (Some temperature) true) = inr items ->
   provider_stream model prompt messages max_tokens temperature
   = ((omap first_content items, None),
      (messages ++ [Message "user" prompt])%list)) /\
  (create_stream (Request model None (messages ++ [Message "user" prompt])%list
                    (Some max_tokens) (Some temperature) true)
   = inr (items ++ CompletionChunk [] :: rest)%list ->
   provider_stream model prompt messages max_tokens temperature
   = ((omap first_content items, Some IndexError),
      (messages ++ [Message "user" prompt])%list)).
Proof.
  intros Hclean. unfold OpenAIProvider.stream. split; intros ->.
  - rewrite stream_items_clean by exact Hclean. reflexivity.
  - rewrite stream_items_until_no_choice by exact Hclean. reflexivity.
Qed.

Lemma after_appends_one messages op :
  exists m,
    after float loads create create_stream O1 O3_MINI output_mode messages op
    = (messages ++ [m])%list /\
    is_system m = false.
Proof.
  destruct op as [model p mt t | model p mt t | r text]; cbn [after].
  - exists (Message "user" p). split; reflexivity.
  - exists (Message "user" p). split; reflexivity.
  - unfold add_message. destruct r; eexists; split; reflexivity.
Qed.

Lemma fold_after_appends ops messages :
  exists added,
    fold_left (after float loads create create_stream O1 O3_MINI output_mode)
      ops messages = (messages ++ added)%list /\
    length added = length ops /\
    List.filter is_system added = [].
Proof.
  revert messages. induction ops as [|op ops IH]; intros messages.
  - exists []. cbn [fold_left]. rewrite app_nil_r. repeat split.
  - cbn [fold_left].
    destruct (after_appends_one messages op) as (m & -> & Hm).
    destruct (IH (messages ++ [m])%list) as (added & -> & Hlen & Hsys).
    exists (m :: added). rewrite <- app_assoc. cbn [app length List.filter].
    rewrite Hm, Hlen, Hsys. repeat split.
Qed.

(** X21: The history of messages only grows at its end, by one message for
    each [call], [stream] or [add_message], whether the operation succeeds
    or not, and a message added is never a system message: the system
    messages of a history are those of [get_initial_messages], at its
    head. *)
Theorem history_is_append_only ops :
  length (provider_history output_mode ops)
    = length (get_initial_messages output_mode) + length ops /\
  get_initial_messages output_mode `prefix_of` provider_history output_mode ops /\
  List.filter is_system (provider_history output_mode ops)
    = get_initial_messages output_mode.
Proof.
  unfold history.
  destruct (fold_after_appends ops (get_initial_messages output_mode))
    as (added & -> & Hlen & Hsys).
  split; [rewrite length_app; lia|]. split; [exists added; reflexivity|].
  rewrite List.filter_app, Hsys, app_nil_r.
  unfold get_initial_messages. destruct output_mode; reflexivity.
Qed.

End ProviderProperties.

Lemma call_json_returns_dict_witness :
  OpenAIProvider.call Z
    (fun raw_output =>
       if String.eqb raw_output "{}" then OpenAIProvider.Parsed (JDict [])
       else OpenAIProvider.JSONDecodeError)
    (fun _ => inr [Some "{"; Some "{}"]) "o1" "o3-mini" OpenAIProvider.JSON
    "gpt-4o" "prompt" [] 2000%Z 0%Z
  = (inl OpenAIProvider.InvalidJson, [OpenAIProvider.Message "user" "prompt"]).
Proof.
  apply (proj1 (proj2 (call_json_returns_dict Z
                  (fun raw_output =>
                     if String.eqb raw_output "{}"
                     then OpenAIProvider.Parsed (JDict [])
                     else OpenAIProvider.JSONDecodeError)
                  (fun _ => inr [Some "{"; Some "{}"]) "o1" "o3-mini"
                  "gpt-4o" "prompt" [] 2000%Z 0%Z _ eq_refl))
           "{" [Some "{}"]).
  reflexivity.
Defined.

Lemma call_o_series_ignores_sampling_witness :
  OpenAIProvider.call Z (fun _ => OpenAIProvider.JSONDecodeError)
    (fun r => if OpenAIProvider.req_stream r then inr [] else inr [Some "text"])
    "o1" "o3-mini" OpenAIProvider.TEXT "o1" "prompt" [] 100%Z 0%Z
  = OpenAIProvider.call Z (fun _ => OpenAIProvider.JSONDecodeError)
      (fun r =>
         match OpenAIProvider.req_max_tokens r with
         | None => inr [Some "text"]
         | Some _ => inl TypeError
         end)
      "o1" "o3-mini" OpenAIProvider.TEXT "o1" "prompt" [] 100%Z 0%Z.
Proof.
  apply (proj1 (proj1 (call_o_series_ignores_sampling Z
                  (fun _ => OpenAIProvider.JSONDecodeError)
                  (fun _ => inr []) "o1" "o3-mini" OpenAIProvider.TEXT
                  "o1" "prompt" [] 100%Z 0%Z _ _ eq_refl eq_refl) eq_refl)).
  reflexivity.
Defined.

Lemma stream_yields_contents_witness :
  OpenAIProvider.stream Z
    (fun _ => inr [OpenAIProvider.CompletionChunk [Some "Hel"];
                   OpenAIProvider.OtherObject;
                   OpenAIProvider.CompletionChunk [None];
                   OpenAIProvider.CompletionChunk [Some "lo"]])
    "gpt-4o" "prompt" [] 100%Z 0%Z
  = ((["Hel"; "lo"], None), [OpenAIProvider.Message "user" "prompt"]).
Proof.
  apply (proj1 (stream_yields_contents Z
                  (fun _ => inr [OpenAIProvider.CompletionChunk [Some "Hel"];
                                 OpenAIProvider.OtherObject;
                                 OpenAIProvider.CompletionChunk [None];
                                 OpenAIProvider.CompletionChunk [Some "lo"]])
                  "gpt-4o" "prompt" [] 100%Z 0%Z
                  [OpenAIProvider.CompletionChunk [Some "Hel"];
                   OpenAIProvider.OtherObject;
                   OpenAIProvider.CompletionChunk [None];
                   OpenAIProvider.CompletionChunk [Some "lo"]]
                  []
                  ltac:(repeat constructor; discriminate))).
  reflexivity.
Defined.
